(** * Focus Battle: theme controller and session timer

    A shallow embedding of [theme.js] and [timer.js].  The JavaScript
    module variables, the pieces of the browser the scripts talk to
    (interval timers, the [beforeunload] listener, [fetch], the console,
    [localStorage]) and the DOM nodes they write are fields of explicit
    state records; every JavaScript function is a function on that state. *)

From Stdlib Require Import ZArith Lia.
From stdpp Require Import base strings list functions gmap pretty.

Local Open Scope Z_scope.

(** ** DOM primitives *)

(** [element.classList] is an ordered set of tokens. *)
Definition classList_add (c : string) (l : list string) : list string :=
  if bool_decide (c ∈ l) then l else l ++ [c].

Definition classList_remove (c : string) (l : list string) : list string :=
  filter (λ x, x ≠ c) l.

Definition classList_toggle (c : string) (force : bool) (l : list string)
  : list string :=
  if force then classList_add c l else classList_remove c l.

(** [String.prototype.padStart(n, c)] for a one-character pad string. *)
Definition padStart (n : nat) (c : Ascii.ascii) (s : string) : string :=
  Nat.iter (n - String.length s) (String c) s.

(** ** theme.js *)

Definition THEME_KEY : string := "focus-battle-theme".
Definition DEFAULT_THEME : string := "theme-lofi".

Definition VALID_THEMES : list string :=
  ["theme-lofi"; "theme-porsche"; "theme-f1"; "theme-nyc"; "theme-liquid"].

(** A [.theme-pill] button: its [data-theme] attribute (absent is
    [undefined]) and its class list. *)
Record pill := Pill {
  dataset_theme : option string;
  pill_classes : list string
}.

(** What [theme.js] sees of the page: the class list of [#app-body] when the
    element exists, the theme pills in document order, and [localStorage]. *)
Record document := Document {
  app_body : option (list string);
  theme_pills : list pill;
  localStorage : gmap string string
}.

Definition normalize_theme (themeName : string) : string :=
  if bool_decide (themeName ∈ VALID_THEMES) then themeName else DEFAULT_THEME.

Definition remove_theme_classes (body : list string) : list string :=
  foldl (λ b t, classList_remove t b) body VALID_THEMES.

Definition update_pill (themeName : string) (btn : pill) : pill :=
  {| dataset_theme := dataset_theme btn;
     pill_classes :=
       classList_toggle "active"
         (bool_decide (dataset_theme btn = Some themeName))
         (pill_classes btn) |}.

Definition applyTheme (themeName : string) (doc : document) : document :=
  let themeName := normalize_theme themeName in
  match app_body doc with
  | None => doc
  | Some body =>
      let body := remove_theme_classes body in
      let body := classList_add themeName body in
      {| app_body := Some body;
         theme_pills := update_pill themeName <$> theme_pills doc;
         localStorage := <[THEME_KEY := themeName]> (localStorage doc) |}
  end.

(** [localStorage.getItem(THEME_KEY) || DEFAULT_THEME]: a missing key gives
    [null] and the empty string is falsy. *)
Definition loadSavedTheme (doc : document) : document :=
  let saved :=
    match localStorage doc !! THEME_KEY with
    | Some EmptyString | None => DEFAULT_THEME
    | Some v => v
    end in
  applyTheme saved doc.

(** The property of a page after a theme change: [theme] is the one theme
    marker on the root element and it is the stored selection. *)
Definition theme_active_and_persisted (theme : string) (doc : document) : Prop :=
  (∃ body, app_body doc = Some body ∧ theme ∈ body ∧
           ∀ t, t ∈ VALID_THEMES → t ≠ theme → t ∉ body) ∧
  localStorage doc !! THEME_KEY = Some theme.

(** A page without [#app-body] and with nothing stored. *)
Definition bare_document : document :=
  {| app_body := None; theme_pills := []; localStorage := ∅ |}.

(** ** timer.js: data *)

Definition TOTAL_SECONDS : Z := 25 * 60.
Definition DANGER_THRESHOLD : Z := 60.

(** The string-valued [timerState] variable. *)
Inductive timer_state := Idle | Running | Done.

Global Instance timer_state_eq_dec : EqDecision timer_state.
Proof. solve_decision. Defined.

(** The four module-level [let] variables. *)
Record session := Session {
  timerState : timer_state;
  secondsLeft : Z;
  intervalId : option nat;
  sessionLocked : bool
}.

(** A [fetch] call, as the scoring backend sees it. *)
Record request := Request {
  url : string;
  method : string;
  keepalive : bool
}.

Definition win_request : request :=
  {| url := "/api/session/win"; method := "POST"; keepalive := false |}.

Definition loss_request (k : bool) : request :=
  {| url := "/api/session/loss"; method := "POST"; keepalive := k |}.

Global Instance request_eq_dec : EqDecision request.
Proof. solve_decision. Defined.

(** The stats object of a response body. *)
Record stats := Stats { wins : Z; losses : Z; streak : Z }.

(** How an awaited [fetch(...)] followed by [res.json()] can end: the
    [fetch] promise rejects, [res.json()] rejects, or a body is parsed (a
    stats object, or a falsy value such as [null]). *)
Inductive fetch_result :=
  | NetworkError (err : string)
  | BadBody (err : string)
  | Body (st : option stats).

(** The two result kinds, ['win'] and ['loss']. *)
Inductive outcome := Win | Loss.

(** The browser as the script uses it: the interval timers that are live and
    the next handle [setInterval] hands out, whether [handleBeforeUnload] is
    registered on [window], the requests sent so far (oldest first), the
    [console.error] lines, and the report calls still awaiting a response,
    each with the kind its continuation passes to [showResult]. *)
Record browser := Browser {
  intervals : list nat;
  nextHandle : nat;
  beforeunload : bool;
  network : list request;
  console : list (string * string);
  inflight : list outcome
}.

(** The elements the script looks up by id. *)
Inductive node :=
  | display | statusEl | progressBar | hintEl | btnStart | btnAbandon
  | resultOverlay | resultCard
  | result_icon | result_title | result_message
  | r_wins | r_losses | r_streak
  | stat_wins | stat_losses | stat_streak.

Global Instance node_eq_dec : EqDecision node.
Proof. solve_decision. Defined.

(** What was last assigned to an element: [textContent] or [innerHTML]. *)
Inductive node_content := Text (s : string) | Html (s : string).

(** A style value: a literal, or the string JavaScript builds from
    [(num / den) * 100 + '%']. *)
Inductive css_value := Css (s : string) | PercentOf (num den : Z).

Record element := Element {
  content : node_content;
  classList : list string;
  disabled : bool;
  style : gmap string css_value
}.

Record page := Page {
  js : session;
  env : browser;
  dom : node → element
}.

(** The [beforeunload] event object. *)
Record unload_event := UnloadEvent {
  defaultPrevented : bool;
  returnValue : option string
}.

Definition fresh_unload_event : unload_event :=
  {| defaultPrevented := false; returnValue := None |}.

(** ** Assignments *)

Definition set_timerState (v : timer_state) (p : page) : page :=
  {| js := {| timerState := v; secondsLeft := secondsLeft (js p);
              intervalId := intervalId (js p);
              sessionLocked := sessionLocked (js p) |};
     env := env p; dom := dom p |}.

Definition set_secondsLeft (v : Z) (p : page) : page :=
  {| js := {| timerState := timerState (js p); secondsLeft := v;
              intervalId := intervalId (js p);
              sessionLocked := sessionLocked (js p) |};
     env := env p; dom := dom p |}.

Definition set_intervalId (v : option nat) (p : page) : page :=
  {| js := {| timerState := timerState (js p);
              secondsLeft := secondsLeft (js p); intervalId := v;
              sessionLocked := sessionLocked (js p) |};
     env := env p; dom := dom p |}.

Definition set_sessionLocked (v : bool) (p : page) : page :=
  {| js := {| timerState := timerState (js p);
              secondsLeft := secondsLeft (js p);
              intervalId := intervalId (js p); sessionLocked := v |};
     env := env p; dom := dom p |}.

Definition with_env (f : browser → browser) (p : page) : page :=
  {| js := js p; env := f (env p); dom := dom p |}.

Definition with_node (n : node) (f : element → element) (p : page) : page :=
  {| js := js p; env := env p; dom := <[n := f (dom p n)]> (dom p) |}.

Definition set_content (n : node) (c : node_content) : page → page :=
  with_node n (λ e, {| content := c; classList := classList e;
                       disabled := disabled e; style := style e |}).

Definition set_textContent (n : node) (s : string) : page → page :=
  set_content n (Text s).

Definition set_innerHTML (n : node) (s : string) : page → page :=
  set_content n (Html s).

Definition with_classList (n : node) (f : list string → list string)
  : page → page :=
  with_node n (λ e, {| content := content e; classList := f (classList e);
                       disabled := disabled e; style := style e |}).

Definition set_disabled (n : node) (b : bool) : page → page :=
  with_node n (λ e, {| content := content e; classList := classList e;
                       disabled := b; style := style e |}).

Definition set_style (n : node) (prop : string) (v : css_value)
  : page → page :=
  with_node n (λ e, {| content := content e; classList := classList e;
                       disabled := disabled e;
                       style := <[prop := v]> (style e) |}).

(** ** Browser services *)

(** [fetch(url, options)]: the request leaves when the call is made. *)
Definition fetch (r : request) : page → page :=
  with_env (λ b, {| intervals := intervals b; nextHandle := nextHandle b;
                    beforeunload := beforeunload b;
                    network := network b ++ [r];
                    console := console b; inflight := inflight b |}).

(** An async report function suspended at its [await]; its caller's
    continuation shows a result of kind [o]. *)
Definition suspend (o : outcome) : page → page :=
  with_env (λ b, {| intervals := intervals b; nextHandle := nextHandle b;
                    beforeunload := beforeunload b; network := network b;
                    console := console b; inflight := inflight b ++ [o] |}).

Definition resume (i : nat) : page → page :=
  with_env (λ b, {| intervals := intervals b; nextHandle := nextHandle b;
                    beforeunload := beforeunload b; network := network b;
                    console := console b; inflight := delete i (inflight b) |}).

Definition console_error (msg err : string) : page → page :=
  with_env (λ b, {| intervals := intervals b; nextHandle := nextHandle b;
                    beforeunload := beforeunload b; network := network b;
                    console := console b ++ [(msg, err)];
                    inflight := inflight b |}).

(** [intervalId = setInterval(tick, 1000)]. *)
Definition setInterval (p : page) : page :=
  let h := nextHandle (env p) in
  set_intervalId (Some h)
    (with_env (λ b, {| intervals := intervals b ++ [h]; nextHandle := S h;
                       beforeunload := beforeunload b; network := network b;
                       console := console b; inflight := inflight b |}) p).

(** [clearInterval(id)]; a [null] or stale handle cancels nothing. *)
Definition cancel (id : option nat) (live : list nat) : list nat :=
  match id with
  | None => live
  | Some h => filter (λ x, x ≠ h) live
  end.

(** [clearInterval(intervalId)]. *)
Definition clearInterval (p : page) : page :=
  with_env (λ b, {| intervals := cancel (intervalId (js p)) (intervals b);
                    nextHandle := nextHandle b;
                    beforeunload := beforeunload b; network := network b;
                    console := console b; inflight := inflight b |}) p.

(** [window.addEventListener('beforeunload', handleBeforeUnload)] and its
    removal; registering the same function twice keeps one listener. *)
Definition set_beforeunload (v : bool) : page → page :=
  with_env (λ b, {| intervals := intervals b; nextHandle := nextHandle b;
                    beforeunload := v; network := network b;
                    console := console b; inflight := inflight b |}).

(** ** timer.js: functions *)

(** [Math.floor(secs / 60)] is the floored quotient and [%] the truncated
    remainder. *)
Definition formatTime (secs : Z) : string :=
  let zero := Ascii.ascii_of_nat 48 in
  let m := padStart 2 zero (pretty (secs / 60)) in
  let s := padStart 2 zero (pretty (Z.rem secs 60)) in
  m +:+ ":" +:+ s.

Definition updateProgress (p : page) : page :=
  let p := set_style progressBar "width"
             (PercentOf (secondsLeft (js p)) TOTAL_SECONDS) p in
  if secondsLeft (js p) <=? DANGER_THRESHOLD
  then set_style progressBar "background" (Css "var(--accent-alt)") p
  else set_style progressBar "background" (Css "var(--accent)") p.

(** [reportWin()] and [reportLoss(keepalive)] up to their [await]. *)
Definition reportWin (p : page) : page :=
  suspend Win (fetch win_request p).

Definition reportLoss (k : bool) (p : page) : page :=
  suspend Loss (fetch (loss_request k) p).

(** The first argument of [console.error] in the [catch] block of
    [reportWin] and of [reportLoss]. *)
Definition failure_message (o : outcome) : string :=
  match o with
  | Win => "Failed to report win:"
  | Loss => "Failed to report loss:"
  end.

(** The rest of a report function once the awaited call has ended: the
    value its promise resolves to, after any [console.error]. *)
Definition report_settled (o : outcome) (r : fetch_result) (p : page)
  : option stats * page :=
  match r with
  | NetworkError err | BadBody err =>
      (None, console_error (failure_message o) err p)
  | Body st => (st, p)
  end.

Definition showResult (type : outcome) (st : option stats) (p : page) : page :=
  let p :=
    match type with
    | Win =>
        let p := set_textContent result_icon "🏆" p in
        let p := set_textContent result_title "Victory!" p in
        let p := set_textContent result_message
                   "You stayed locked in. Respect." p in
        set_style resultCard "borderColor" (Css "var(--accent)") p
    | Loss =>
        let p := set_textContent result_icon "💀" p in
        let p := set_textContent result_title "Defeated." p in
        let p := set_textContent result_message
                   "You left early. Streak reset. Try again." p in
        set_style resultCard "borderColor" (Css "var(--accent-alt)") p
    end in
  let p :=
    match st with
    | Some st =>
        let p := set_textContent r_wins (pretty (wins st)) p in
        let p := set_textContent r_losses (pretty (losses st)) p in
        let p := set_textContent r_streak (pretty (streak st)) p in
        let p := set_textContent stat_wins (pretty (wins st)) p in
        let p := set_textContent stat_losses (pretty (losses st)) p in
        set_textContent stat_streak (pretty (streak st) +:+ "🔥") p
    | None => p
    end in
  with_classList resultOverlay (classList_remove "hidden") p.

Definition tick (p : page) : page :=
  let p := set_secondsLeft (secondsLeft (js p) - 1) p in
  let p := set_textContent display (formatTime (secondsLeft (js p))) p in
  let p := updateProgress p in
  let p :=
    if secondsLeft (js p) <=? DANGER_THRESHOLD then
      let p := with_classList display (classList_add "danger") p in
      let p := with_classList display (classList_remove "running") p in
      set_textContent statusEl "⚠ HOLD THE LINE" p
    else p in
  if secondsLeft (js p) <=? 0 then
    let p := clearInterval p in
    let p := set_sessionLocked true p in
    let p := set_timerState Done p in
    let p := set_textContent display "00:00" p in
    let p := set_textContent statusEl "SESSION COMPLETE" p in
    let p := set_beforeunload false p in
    reportWin p
  else p.

Definition startTimer (p : page) : page :=
  if decide (timerState (js p) = Running) then p else
  let p := set_timerState Running p in
  let p := set_sessionLocked false p in
  let p := with_classList display (classList_add "running") p in
  let p := with_classList display (classList_remove "danger") p in
  let p := set_textContent statusEl "BATTLE IN PROGRESS" p in
  let p := set_textContent hintEl "Stay focused. Don't you dare leave." p in
  let p := with_classList btnStart (classList_add "hidden") p in
  let p := with_classList btnAbandon (classList_remove "hidden") p in
  let p := set_disabled btnStart true p in
  let p := setInterval p in
  set_beforeunload true p.

Definition resetTimer (p : page) : page :=
  let p := clearInterval p in
  let p := set_secondsLeft TOTAL_SECONDS p in
  let p := set_timerState Idle p in
  let p := set_sessionLocked false p in
  let p := set_textContent display (formatTime TOTAL_SECONDS) p in
  let p := with_classList display
             (λ l, classList_remove "danger" (classList_remove "running" l)) p in
  let p := set_style progressBar "width" (Css "100%") p in
  let p := set_style progressBar "background" (Css "var(--accent)") p in
  let p := set_textContent statusEl "READY TO BATTLE" p in
  let p := set_innerHTML hintEl
    "Lock in for 25 minutes. Leave early and you <strong>lose</strong>." p in
  let p := with_classList btnStart (classList_remove "hidden") p in
  let p := set_disabled btnStart false p in
  let p := with_classList btnAbandon (classList_add "hidden") p in
  set_beforeunload false p.

(** [abandonSession] up to its [await]; [showResult('loss', stats)] runs
    when the response is delivered. *)
Definition abandonSession (p : page) : page :=
  if decide (timerState (js p) ≠ Running) then p else
  let p := clearInterval p in
  let p := set_sessionLocked true p in
  let p := set_timerState Done p in
  let p := set_beforeunload false p in
  let p := set_textContent statusEl "ABANDONED" p in
  reportLoss false p.

Definition handleBeforeUnload (e : unload_event) (p : page)
  : page * unload_event :=
  if sessionLocked (js p) || bool_decide (timerState (js p) ≠ Running)
  then (p, e)
  else
    let p := fetch (loss_request true) p in
    (p, {| defaultPrevented := true; returnValue := Some "" |}).

(** The click handler of [#btn-again]. *)
Definition battle_again (p : page) : page :=
  let p := with_classList resultOverlay (classList_add "hidden") p in
  resetTimer p.

(** The page once [DOMContentLoaded] has run, over the markup [html]. *)
Definition initial_page (html : node → element) : page :=
  let p := {| js := {| timerState := Idle; secondsLeft := TOTAL_SECONDS;
                       intervalId := None; sessionLocked := false |};
              env := {| intervals := []; nextHandle := 1;
                        beforeunload := false; network := [];
                        console := []; inflight := [] |};
              dom := html |} in
  let p := set_textContent display (formatTime TOTAL_SECONDS) p in
  updateProgress p.

(** ** The event loop *)

(** What can happen to the page: a direct call of one of the four timer
    functions ([Tick] is the interval firing, so it needs a live interval),
    the browser dispatching [beforeunload], the response (or failure) of the
    [i]-th pending report arriving, and clicks on the start and battle-again
    buttons (a disabled button dispatches no click). *)
Inductive action :=
  | Start | Tick | Abandon | Reset
  | Unload
  | Response (i : nat) (r : fetch_result)
  | ClickStart | ClickAgain.

Definition on_interval (p : page) : page :=
  match intervals (env p) with
  | [] => p
  | _ :: _ => tick p
  end.

Definition on_beforeunload (p : page) : page :=
  if beforeunload (env p)
  then fst (handleBeforeUnload fresh_unload_event p)
  else p.

Definition on_response (i : nat) (r : fetch_result) (p : page) : page :=
  match inflight (env p) !! i with
  | None => p
  | Some o =>
      let '(st, p) := report_settled o r (resume i p) in
      showResult o st p
  end.

Definition on_click_start (p : page) : page :=
  if disabled (dom p btnStart) then p else startTimer p.

Definition perform (a : action) : page → page :=
  match a with
  | Start => startTimer
  | Tick => on_interval
  | Abandon => abandonSession
  | Reset => resetTimer
  | Unload => on_beforeunload
  | Response i r => on_response i r
  | ClickStart => on_click_start
  | ClickAgain => battle_again
  end.

Definition run (acts : list action) (p : page) : page :=
  foldl (λ p a, perform a p) p acts.

(** The requests [acts] add to those already sent. *)
Definition emitted (acts : list action) (p : page) : list request :=
  drop (length (network (env p))) (network (env (run acts p))).

(** The four operations of the timer, called directly. *)
Definition timer_operation (a : action) : bool :=
  match a with
  | Start | Tick | Abandon | Reset => true
  | _ => false
  end.

(** Everything but a direct [startTimer] call: starting goes through the
    start button. *)
Definition through_ui (a : action) : bool :=
  match a with
  | Start => false
  | _ => true
  end.

Definition ticking (p : page) : bool :=
  match intervals (env p) with [] => false | _ => true end.

(** ** The session as later operations see it *)

(** The part of a page that decides what the timer functions do next: the
    three session variables, whether the unload guard is registered, whether
    a countdown is live, and whether the start button is disabled. *)
Record observation := Observation {
  o_state : timer_state;
  o_seconds : Z;
  o_locked : bool;
  o_guard : bool;
  o_ticking : bool;
  o_start_disabled : bool
}.

Definition observe (p : page) : observation :=
  {| o_state := timerState (js p); o_seconds := secondsLeft (js p);
     o_locked := sessionLocked (js p); o_guard := beforeunload (env p);
     o_ticking := ticking p;
     o_start_disabled := disabled (dom p btnStart) |}.

(** The timer functions read through [observe]; [perform_observed] below
    shows that this is what [perform] does to a page. *)
Definition started (o : observation) : observation :=
  if decide (o_state o = Running) then o else
  {| o_state := Running; o_seconds := o_seconds o; o_locked := false;
     o_guard := true; o_ticking := true; o_start_disabled := true |}.

Definition ticked (o : observation) : observation :=
  if o_seconds o - 1 <=? 0 then
    {| o_state := Done; o_seconds := o_seconds o - 1; o_locked := true;
       o_guard := false; o_ticking := false;
       o_start_disabled := o_start_disabled o |}
  else
    {| o_state := o_state o; o_seconds := o_seconds o - 1;
       o_locked := o_locked o; o_guard := o_guard o;
       o_ticking := o_ticking o; o_start_disabled := o_start_disabled o |}.

Definition abandoned (o : observation) : observation :=
  if decide (o_state o ≠ Running) then o else
  {| o_state := Done; o_seconds := o_seconds o; o_locked := true;
     o_guard := false; o_ticking := false;
     o_start_disabled := o_start_disabled o |}.

Definition ready : observation :=
  {| o_state := Idle; o_seconds := TOTAL_SECONDS; o_locked := false;
     o_guard := false; o_ticking := false; o_start_disabled := false |}.

Definition timer_step (a : action) (o : observation) : observation :=
  match a with
  | Start => started o
  | Tick => if o_ticking o then ticked o else o
  | Abandon => abandoned o
  | Reset | ClickAgain => ready
  | Unload | Response _ _ => o
  | ClickStart => if o_start_disabled o then o else started o
  end.

(** The requests an action sends. *)
Definition timer_reports (a : action) (o : observation) : list request :=
  match a with
  | Tick =>
      if o_ticking o && (o_seconds o - 1 <=? 0) then [win_request] else []
  | Abandon =>
      if decide (o_state o = Running) then [loss_request false] else []
  | Unload =>
      if o_guard o && negb (o_locked o) && bool_decide (o_state o = Running)
      then [loss_request true] else []
  | _ => []
  end.

Definition timer_run (acts : list action) (o : observation) : observation :=
  foldl (λ o a, timer_step a o) o acts.

(** At most one interval is live, it is the one [intervalId] names, and only
    a running session has one. *)
Definition one_countdown (p : page) : Prop :=
  intervals (env p) = [] ∨
  (timerState (js p) = Running ∧
   ∃ h, intervals (env p) = [h] ∧ intervalId (js p) = Some h).

Definition blank_element : element :=
  {| content := Text ""; classList := []; disabled := false; style := ∅ |}.

(** A page whose elements carry no text, class or style yet. *)
Definition blank_page : page := initial_page (λ _, blank_element).

(** The requests sent while [acts] run from observation [o]. *)
Fixpoint reports_of (acts : list action) (o : observation) : list request :=
  match acts with
  | [] => []
  | a :: acts => timer_reports a o ++ reports_of acts (timer_step a o)
  end.

(** What holds of the observation of every page the user interface can
    reach: the seconds stay in range, a running session has time left, the
    start button is enabled only when idle, an idle session has the full
    duration, and only a running session counts down. *)
Definition session_inv (o : observation) : Prop :=
  0 ≤ o_seconds o ≤ TOTAL_SECONDS ∧
  (o_state o = Running → 1 ≤ o_seconds o) ∧
  (o_start_disabled o = false → o_state o = Idle) ∧
  (o_state o = Idle → o_seconds o = TOTAL_SECONDS) ∧
  (o_ticking o = true → o_state o = Running).

(** The class list of the display once [tick] has put it in danger mode. *)
Definition danger_classes (l : list string) : list string :=
  classList_remove "running" (classList_add "danger" l).


(** The six elements that show the counters of a stats object. *)
Definition stat_node (n : node) : bool :=
  match n with
  | r_wins | r_losses | r_streak | stat_wins | stat_losses | stat_streak => true
  | _ => false
  end.

(** ** theme.js: the pill buttons *)

(** The click listener [initThemePills] attaches to the [i]-th pill:
    [applyTheme(btn.dataset.theme)].  A pill without a [data-theme]
    attribute passes [undefined], which [VALID_THEMES] does not include, so
    the call goes on with [DEFAULT_THEME]. *)
Definition pill_click (i : nat) (doc : document) : document :=
  match theme_pills doc !! i with
  | None => doc
  | Some btn =>
      match dataset_theme btn with
      | Some t => applyTheme t doc
      | None => applyTheme DEFAULT_THEME doc
      end
  end.

(** Whether a pill is shown as the selected one. *)
Definition pill_active (btn : pill) : bool :=
  bool_decide ("active" ∈ pill_classes btn).

(** ** timer.js: the clock face *)

(** The character of a decimal digit. *)
Definition digit (d : Z) : Ascii.ascii := Ascii.ascii_of_nat (48 + Z.to_nat d).

(** Two digits of minutes, a colon, two digits of seconds. *)
Definition clock_face (secs : Z) : string :=
  String (digit (secs / 600))
    (String (digit (secs / 60 mod 10))
       (String (Ascii.ascii_of_nat 58)
          (String (digit (secs mod 60 / 10))
             (String (digit (secs mod 10)) "")))).

(** Reading a clock face back: the seconds it stands for. *)
Definition digit_value (c : Ascii.ascii) : Z :=
  Z.of_nat (Ascii.nat_of_ascii c) - 48.

Definition clock_seconds (s : string) : option Z :=
  match s with
  | String m1 (String m0 (String _ (String s1 (String s0 EmptyString)))) =>
      Some ((digit_value m1 * 10 + digit_value m0) * 60
            + digit_value s1 * 10 + digit_value s0)
  | _ => None
  end.

(** ** timer.js: counting actions and reports *)

(** The session flags agree with the state: a countdown is live and the
    unload guard registered exactly while running, and the lock flag is set
    exactly when done. *)
Definition coherent (o : observation) : Prop :=
  (o_ticking o = true ↔ o_state o = Running) ∧
  (o_guard o = true ↔ o_state o = Running) ∧
  (o_locked o = true ↔ o_state o = Done).

Definition is_start (a : action) : bool :=
  match a with Start | ClickStart => true | _ => false end.

Definition is_tick (a : action) : bool :=
  match a with Tick => true | _ => false end.

Definition is_unload (a : action) : bool :=
  match a with Unload => true | _ => false end.

Definition count_actions (f : action → bool) (acts : list action) : nat :=
  length (filter (λ a, f a = true) acts).

(** The reports sent by [reportWin] and [reportLoss(false)], those sent by
    the unload handler, and the win reports. *)
Definition awaited_reports (l : list request) : nat :=
  length (filter (λ r, keepalive r = false) l).

Definition unload_reports (l : list request) : nat :=
  length (filter (λ r, keepalive r = true) l).

Definition win_reports (l : list request) : nat :=
  length (filter (λ r, r = win_request) l).

(** The seconds a running session has counted down so far. *)
Definition elapsed (o : observation) : Z :=
  if decide (o_state o = Running) then TOTAL_SECONDS - o_seconds o else 0.

(** ** timer.js: the page and the session variables *)

(** The countdown display shows the seconds left. *)
Definition display_in_sync (p : page) : Prop :=
  content (dom p display) = Text (formatTime (secondsLeft (js p))).

(** The progress bar has the colour and the width of the seconds left;
    [resetTimer] writes the full width as a literal. *)
Definition progress_in_sync (p : page) : Prop :=
  style (dom p progressBar) !! "background" =
    Some (Css (if secondsLeft (js p) <=? DANGER_THRESHOLD
               then "var(--accent-alt)" else "var(--accent)")) ∧
  (style (dom p progressBar) !! "width" =
     Some (PercentOf (secondsLeft (js p)) TOTAL_SECONDS) ∨
   (secondsLeft (js p) = TOTAL_SECONDS ∧
    style (dom p progressBar) !! "width" = Some (Css "100%"))).

(** A running session shows the danger mode in its last 60 seconds and the
    running mode before. *)
Definition danger_in_sync (p : page) : Prop :=
  timerState (js p) = Running →
  ("danger" ∈ classList (dom p display) ↔
     secondsLeft (js p) ≤ DANGER_THRESHOLD) ∧
  ("running" ∈ classList (dom p display) ↔
     DANGER_THRESHOLD < secondsLeft (js p)).

(** Outside the idle state the start button is disabled and hidden and the
    abandon button is shown. *)
Definition buttons_in_sync (p : page) : Prop :=
  timerState (js p) ≠ Idle →
  disabled (dom p btnStart) = true ∧
  "hidden" ∈ classList (dom p btnStart) ∧
  "hidden" ∉ classList (dom p btnAbandon).

(** The elements the countdown itself writes, as opposed to those of the
    result overlay. *)
Definition timer_node (n : node) : bool :=
  match n with
  | display | statusEl | progressBar | hintEl | btnStart | btnAbandon => true
  | _ => false
  end.

(** * Properties *)

(** ** Class lists *)

Lemma elem_of_classList_add (c x : string) (l : list string) :
  x ∈ classList_add c l ↔ x = c ∨ x ∈ l.
Proof.
  unfold classList_add. case_bool_decide as Hc.
  - split; [intros ?; by right | intros [-> | ?]; done].
  - rewrite elem_of_app, list_elem_of_singleton. tauto.
Qed.

Lemma elem_of_classList_remove (c x : string) (l : list string) :
  x ∈ classList_remove c l ↔ x ≠ c ∧ x ∈ l.
Proof. unfold classList_remove. by rewrite list_elem_of_filter. Qed.

Lemma classList_add_present (c : string) (l : list string) :
  c ∈ l → classList_add c l = l.
Proof. intros Hc. unfold classList_add. by rewrite bool_decide_eq_true_2. Qed.

Lemma classList_remove_absent (c : string) (l : list string) :
  c ∉ l → classList_remove c l = l.
Proof.
  intros Hc. unfold classList_remove.
  induction l as [|x l IH]; [done|].
  rewrite filter_cons_True.
  - f_equal. apply IH. intros ?. apply Hc. by right.
  - intros ->. apply Hc. by left.
Qed.

(** ** theme.js *)

Lemma elem_of_remove_theme_classes (x : string) (body : list string) :
  x ∈ remove_theme_classes body ↔ x ∈ body ∧ x ∉ VALID_THEMES.
Proof.
  unfold remove_theme_classes. revert body.
  induction VALID_THEMES as [|t ts IH]; intros body; simpl.
  - split; [intros ?; split; [done | apply not_elem_of_nil] | tauto].
  - rewrite IH, elem_of_classList_remove, not_elem_of_cons. tauto.
Qed.

Lemma normalize_theme_invalid (name : string) :
  name ∉ VALID_THEMES → normalize_theme name = DEFAULT_THEME.
Proof. intros H. unfold normalize_theme. by rewrite bool_decide_eq_false_2. Qed.

Lemma normalize_theme_valid (name : string) :
  normalize_theme name ∈ VALID_THEMES.
Proof.
  unfold normalize_theme. case_bool_decide; [done|].
  unfold DEFAULT_THEME, VALID_THEMES. by left.
Qed.

(** Whatever is asked for, the root element ends with the normalized theme
    as its only theme marker, and that theme is what is stored. *)
Lemma applyTheme_active_and_persisted (name : string) (doc : document) :
  is_Some (app_body doc) →
  theme_active_and_persisted (normalize_theme name) (applyTheme name doc).
Proof.
  intros [body Hbody]. unfold applyTheme, theme_active_and_persisted.
  rewrite Hbody. simpl. split.
  - eexists. split; [reflexivity|]. split.
    + apply elem_of_classList_add. by left.
    + intros t Ht Hne. rewrite elem_of_classList_add.
      rewrite elem_of_remove_theme_classes. tauto.
  - apply lookup_insert_eq.
Qed.

Lemma theme_matrix_invalid : "theme-matrix" ∉ VALID_THEMES.
Proof.
  apply (bool_decide_unpack ("theme-matrix" ∉ VALID_THEMES)).
  vm_compute. exact I.
Qed.

(** C5, as stated, fails on a page without [#app-body]: [applyTheme]
    returns before it stores anything. *)
Lemma applyTheme_without_root_not_persisted :
  ("theme-matrix" ∉ VALID_THEMES) ∧
  ¬ (theme_active_and_persisted DEFAULT_THEME
       (applyTheme "theme-matrix" bare_document)).
Proof.
  split; [apply theme_matrix_invalid|].
  intros [_ H]. vm_compute in H. discriminate H.
Qed.

(** C5 (amended): for every string outside the valid-theme set, [applyTheme]
    on a page that has the root element [#app-body] leaves ['theme-lofi'] as
    the only theme marker on it, keeps its other classes, and stores
    ['theme-lofi'] under the theme key, which is what [loadSavedTheme] then
    reads back; it does what [applyTheme('theme-lofi')] does.  On a page
    without the root element it does nothing. *)
Theorem applyTheme_invalid_falls_back_to_default (name : string) (doc : document) :
  name ∉ VALID_THEMES →
  (is_Some (app_body doc) →
   theme_active_and_persisted DEFAULT_THEME (applyTheme name doc) ∧
   (∀ body body' c,
      app_body doc = Some body →
      app_body (applyTheme name doc) = Some body' →
      c ∉ VALID_THEMES → (c ∈ body' ↔ c ∈ body)) ∧
   loadSavedTheme (applyTheme name doc) =
     applyTheme DEFAULT_THEME (applyTheme name doc) ∧
   applyTheme name doc = applyTheme DEFAULT_THEME doc) ∧
  (app_body doc = None → applyTheme name doc = doc).
Proof.
  intros Hname. split.
  - intros Hbody.
    assert (Hdefault :
      theme_active_and_persisted DEFAULT_THEME (applyTheme name doc)).
    { rewrite <- (normalize_theme_invalid name Hname).
      by apply applyTheme_active_and_persisted. }
    split; [exact Hdefault|]. split; [|split].
    + intros body body' c Hb Hb' Hc. unfold applyTheme in Hb'.
      rewrite Hb in Hb'. simpl in Hb'. injection Hb' as <-.
      rewrite elem_of_classList_add, elem_of_remove_theme_classes.
      split; [intros [-> | [? _]]; [|done] | tauto].
      destruct Hc. apply normalize_theme_valid.
    + destruct Hdefault as [_ Hstored]. unfold loadSavedTheme.
      by rewrite Hstored.
    + unfold applyTheme. rewrite (normalize_theme_invalid name Hname).
      reflexivity.
  - intros Hnone. unfold applyTheme. by rewrite Hnone.
Qed.

Lemma applyTheme_invalid_falls_back_to_default_witness :
  theme_active_and_persisted DEFAULT_THEME
    (applyTheme "theme-matrix"
       {| app_body := Some ["page"; "theme-f1"]; theme_pills := [];
          localStorage := ∅ |}).
Proof.
  refine (proj1 (proj1 (applyTheme_invalid_falls_back_to_default
                   "theme-matrix"
                   {| app_body := Some ["page"; "theme-f1"];
                      theme_pills := []; localStorage := ∅ |} _) _)).
  - apply (bool_decide_unpack ("theme-matrix" ∉ VALID_THEMES)).
    vm_compute. exact I.
  - simpl. by eexists.
Defined.

(** ** The clock face *)

Example formatTime_full : formatTime TOTAL_SECONDS = "25:00".
Proof. reflexivity. Qed.

Example formatTime_danger : formatTime DANGER_THRESHOLD = "01:00".
Proof. reflexivity. Qed.

Example formatTime_last_second : formatTime 1 = "00:01".
Proof. reflexivity. Qed.

Example formatTime_below_zero : formatTime (-1) = "-1:-1".
Proof. reflexivity. Qed.

(** ** timer.js: reading a page after an assignment *)

Section frames.
Context (p : page).

Lemma js_with_node n f : js (with_node n f p) = js p.
Proof. reflexivity. Qed.

Lemma env_with_node n f : env (with_node n f p) = env p.
Proof. reflexivity. Qed.

Lemma dom_with_node_eq n f : dom (with_node n f p) n = f (dom p n).
Proof. unfold with_node. cbn [dom]. apply fn_lookup_insert. Qed.

Lemma dom_with_node_ne n n' f :
  n ≠ n' → dom (with_node n f p) n' = dom p n'.
Proof. intros. unfold with_node. cbn [dom]. by apply fn_lookup_insert_ne. Qed.

Lemma js_with_env f : js (with_env f p) = js p.
Proof. reflexivity. Qed.

Lemma env_with_env f : env (with_env f p) = f (env p).
Proof. reflexivity. Qed.

Lemma dom_with_env f : dom (with_env f p) = dom p.
Proof. reflexivity. Qed.

Lemma js_set_timerState v :
  js (set_timerState v p) =
  {| timerState := v; secondsLeft := secondsLeft (js p);
     intervalId := intervalId (js p);
     sessionLocked := sessionLocked (js p) |}.
Proof. reflexivity. Qed.

Lemma js_set_secondsLeft v :
  js (set_secondsLeft v p) =
  {| timerState := timerState (js p); secondsLeft := v;
     intervalId := intervalId (js p);
     sessionLocked := sessionLocked (js p) |}.
Proof. reflexivity. Qed.

Lemma js_set_intervalId v :
  js (set_intervalId v p) =
  {| timerState := timerState (js p); secondsLeft := secondsLeft (js p);
     intervalId := v; sessionLocked := sessionLocked (js p) |}.
Proof. reflexivity. Qed.

Lemma js_set_sessionLocked v :
  js (set_sessionLocked v p) =
  {| timerState := timerState (js p); secondsLeft := secondsLeft (js p);
     intervalId := intervalId (js p); sessionLocked := v |}.
Proof. reflexivity. Qed.

Lemma env_set_timerState v : env (set_timerState v p) = env p.
Proof. reflexivity. Qed.
Lemma env_set_secondsLeft v : env (set_secondsLeft v p) = env p.
Proof. reflexivity. Qed.
Lemma env_set_intervalId v : env (set_intervalId v p) = env p.
Proof. reflexivity. Qed.
Lemma env_set_sessionLocked v : env (set_sessionLocked v p) = env p.
Proof. reflexivity. Qed.

Lemma dom_set_timerState v : dom (set_timerState v p) = dom p.
Proof. reflexivity. Qed.
Lemma dom_set_secondsLeft v : dom (set_secondsLeft v p) = dom p.
Proof. reflexivity. Qed.
Lemma dom_set_intervalId v : dom (set_intervalId v p) = dom p.
Proof. reflexivity. Qed.
Lemma dom_set_sessionLocked v : dom (set_sessionLocked v p) = dom p.
Proof. reflexivity. Qed.
End frames.

Create Rewrite HintDb page.

#[local] Hint Rewrite js_with_node env_with_node dom_with_node_eq
  js_with_env env_with_env dom_with_env
  js_set_timerState js_set_secondsLeft js_set_intervalId js_set_sessionLocked
  env_set_timerState env_set_secondsLeft env_set_intervalId
  env_set_sessionLocked
  dom_set_timerState dom_set_secondsLeft dom_set_intervalId
  dom_set_sessionLocked : page.
#[local] Hint Rewrite dom_with_node_ne using discriminate : page.

(** Unfold the derived assignments down to [with_node], [with_env] and the
    variable setters, then read the projections off layer by layer. *)
Ltac page_simpl :=
  unfold reportWin, reportLoss, setInterval, clearInterval, fetch, suspend,
    resume, console_error, set_beforeunload, set_textContent, set_innerHTML,
    set_content, with_classList, set_disabled, set_style;
  repeat first
    [ progress autorewrite with page
    | progress cbn [js env dom timerState secondsLeft intervalId
        sessionLocked intervals nextHandle beforeunload network console
        inflight content classList disabled style fst snd
        o_state o_seconds o_locked o_guard o_ticking o_start_disabled] ].

Lemma updateProgress_frame (p : page) :
  js (updateProgress p) = js p ∧ env (updateProgress p) = env p ∧
  ∀ n, n ≠ progressBar → dom (updateProgress p) n = dom p n.
Proof.
  unfold updateProgress. page_simpl.
  destruct (secondsLeft (js p) <=? DANGER_THRESHOLD); page_simpl;
    (split; [done|]; split; [done|]); intros n Hn;
    by rewrite !dom_with_node_ne by congruence.
Qed.

Lemma js_updateProgress (p : page) : js (updateProgress p) = js p.
Proof. apply updateProgress_frame. Qed.

Lemma env_updateProgress (p : page) : env (updateProgress p) = env p.
Proof. apply updateProgress_frame. Qed.

Lemma dom_updateProgress_ne (p : page) (n : node) :
  n ≠ progressBar → dom (updateProgress p) n = dom p n.
Proof. apply updateProgress_frame. Qed.

#[local] Hint Rewrite js_updateProgress env_updateProgress : page.
#[local] Hint Rewrite dom_updateProgress_ne using discriminate : page.

Lemma js_tick (p : page) :
  js (tick p) =
  if secondsLeft (js p) - 1 <=? 0
  then {| timerState := Done; secondsLeft := secondsLeft (js p) - 1;
          intervalId := intervalId (js p); sessionLocked := true |}
  else {| timerState := timerState (js p);
          secondsLeft := secondsLeft (js p) - 1;
          intervalId := intervalId (js p);
          sessionLocked := sessionLocked (js p) |}.
Proof.
  unfold tick. page_simpl.
  destruct (secondsLeft (js p) - 1 <=? DANGER_THRESHOLD); page_simpl;
    destruct (secondsLeft (js p) - 1 <=? 0); page_simpl; reflexivity.
Qed.

Lemma env_tick (p : page) :
  env (tick p) =
  if secondsLeft (js p) - 1 <=? 0
  then {| intervals := cancel (intervalId (js p)) (intervals (env p));
          nextHandle := nextHandle (env p); beforeunload := false;
          network := network (env p) ++ [win_request];
          console := console (env p);
          inflight := inflight (env p) ++ [Win] |}
  else env p.
Proof.
  unfold tick. page_simpl.
  destruct (secondsLeft (js p) - 1 <=? DANGER_THRESHOLD); page_simpl;
    destruct (secondsLeft (js p) - 1 <=? 0); page_simpl; reflexivity.
Qed.

Lemma display_classes_tick (p : page) :
  classList (dom (tick p) display) =
  if secondsLeft (js p) - 1 <=? DANGER_THRESHOLD
  then danger_classes (classList (dom p display))
  else classList (dom p display).
Proof.
  unfold tick, danger_classes. page_simpl.
  destruct (secondsLeft (js p) - 1 <=? DANGER_THRESHOLD); page_simpl;
    destruct (secondsLeft (js p) - 1 <=? 0); page_simpl; reflexivity.
Qed.

Lemma btnStart_tick (p : page) : dom (tick p) btnStart = dom p btnStart.
Proof.
  unfold tick. page_simpl.
  destruct (secondsLeft (js p) - 1 <=? DANGER_THRESHOLD); page_simpl;
    destruct (secondsLeft (js p) - 1 <=? 0); page_simpl; reflexivity.
Qed.

(** ** Running actions *)

Lemma run_cons (a : action) (acts : list action) (p : page) :
  run (a :: acts) p = run acts (perform a p).
Proof. reflexivity. Qed.

Lemma run_app (acts1 acts2 : list action) (p : page) :
  run (acts1 ++ acts2) p = run acts2 (run acts1 p).
Proof. apply foldl_app. Qed.

Lemma run_snoc (acts : list action) (a : action) (p : page) :
  run (acts ++ [a]) p = perform a (run acts p).
Proof. apply run_app. Qed.

(** ** One countdown at a time *)

Lemma cancel_own_handle (h : nat) : cancel (Some h) [h] = [].
Proof.
  unfold cancel. rewrite filter_cons_False; [done | by intros []].
Qed.

Lemma one_countdown_cancel (p : page) :
  one_countdown p → cancel (intervalId (js p)) (intervals (env p)) = [].
Proof.
  intros [Hnil | (_ & h & Hh & Hid)].
  - rewrite Hnil. by destruct (intervalId (js p)).
  - rewrite Hh, Hid. apply cancel_own_handle.
Qed.

Lemma one_countdown_idle (p : page) :
  one_countdown p → timerState (js p) ≠ Running → intervals (env p) = [].
Proof. intros [? | (? & _)] ?; done. Qed.

Lemma one_countdown_ticking (p : page) :
  one_countdown p → ticking p = true → timerState (js p) = Running.
Proof.
  unfold ticking. intros [Hnil | (? & _)]; [by rewrite Hnil | done].
Qed.

(** ** Each action, seen through [observe] *)

Lemma start_observed (p : page) :
  one_countdown p →
  observe (startTimer p) = started (observe p) ∧
  network (env (startTimer p)) = network (env p) ∧
  one_countdown (startTimer p).
Proof.
  intros Hone. unfold startTimer, started. cbn [observe o_state].
  destruct (decide (timerState (js p) = Running)) as [Hrun | Hrun].
  - done.
  - pose proof (one_countdown_idle p Hone Hrun) as Hnil.
    unfold observe, ticking, one_countdown. page_simpl. rewrite Hnil.
    split; [done|]. split; [done|]. right. eauto.
Qed.

Lemma ticking_cases (p : page) :
  (intervals (env p) = [] ∧ ticking p = false) ∨
  (on_interval p = tick p ∧ ticking p = true).
Proof.
  unfold on_interval, ticking.
  destruct (intervals (env p)); [by left | by right].
Qed.

Lemma ticking_tick (p : page) :
  one_countdown p → ticking p = true →
  ticking (tick p) = negb (secondsLeft (js p) - 1 <=? 0).
Proof.
  intros Hone Htick. unfold ticking. rewrite env_tick.
  destruct (secondsLeft (js p) - 1 <=? 0); cbn [intervals negb].
  - by rewrite (one_countdown_cancel p Hone).
  - exact Htick.
Qed.

Lemma tick_observed (p : page) :
  one_countdown p →
  observe (on_interval p) = timer_step Tick (observe p) ∧
  network (env (on_interval p)) =
    network (env p) ++ timer_reports Tick (observe p) ∧
  one_countdown (on_interval p).
Proof.
  intros Hone.
  cbn [timer_step timer_reports observe o_ticking o_seconds].
  destruct (ticking_cases p) as [[Hivs Htick] | [Heq Htick]].
  - unfold on_interval. rewrite Hivs, Htick, app_nil_r. done.
  - rewrite Heq, Htick. cbn [andb].
    unfold ticked, observe, one_countdown.
    rewrite (ticking_tick p Hone Htick), js_tick, env_tick, btnStart_tick.
    page_simpl.
    destruct (secondsLeft (js p) - 1 <=? 0); page_simpl.
    + rewrite (one_countdown_cancel p Hone).
      split; [done|]. split; [done|]. by left.
    + rewrite Htick, app_nil_r. done.
Qed.

Lemma abandon_observed (p : page) :
  one_countdown p →
  observe (abandonSession p) = abandoned (observe p) ∧
  network (env (abandonSession p)) =
    network (env p) ++ timer_reports Abandon (observe p) ∧
  one_countdown (abandonSession p).
Proof.
  intros Hone. pose proof (one_countdown_cancel p Hone) as Hc.
  unfold abandonSession, abandoned, timer_reports. cbn [observe o_state].
  destruct (decide (timerState (js p) ≠ Running)) as [Hrun | Hrun].
  - rewrite decide_False by done. by rewrite app_nil_r.
  - apply dec_stable in Hrun. rewrite decide_True by done.
    unfold observe, ticking, one_countdown. page_simpl. rewrite Hc.
    split; [done|]. split; [done|]. by left.
Qed.

Lemma reset_observed (p : page) :
  one_countdown p →
  observe (resetTimer p) = ready ∧
  network (env (resetTimer p)) = network (env p) ∧
  one_countdown (resetTimer p).
Proof.
  intros Hone. pose proof (one_countdown_cancel p Hone) as Hc.
  unfold resetTimer, observe, ticking, one_countdown. page_simpl.
  rewrite Hc. split; [done|]. split; [done|]. by left.
Qed.

Lemma again_observed (p : page) :
  one_countdown p →
  observe (battle_again p) = ready ∧
  network (env (battle_again p)) = network (env p) ∧
  one_countdown (battle_again p).
Proof.
  intros Hone. unfold battle_again.
  destruct (reset_observed
              (with_classList resultOverlay (classList_add "hidden") p))
    as (Hobs & Hnet & Hone'); [exact Hone|].
  by rewrite Hobs, Hnet.
Qed.

Lemma unload_observed (p : page) :
  one_countdown p →
  observe (on_beforeunload p) = observe p ∧
  network (env (on_beforeunload p)) =
    network (env p) ++ timer_reports Unload (observe p) ∧
  one_countdown (on_beforeunload p).
Proof.
  intros Hone. unfold on_beforeunload, handleBeforeUnload, timer_reports.
  cbn [observe o_guard o_locked o_state].
  destruct (beforeunload (env p)); cbn [andb];
    [| by rewrite app_nil_r].
  destruct (sessionLocked (js p)); cbn [orb negb andb fst];
    [by rewrite app_nil_r |].
  destruct (decide (timerState (js p) = Running)) as [Hrun | Hrun].
  - rewrite (bool_decide_eq_false_2 (_ ≠ _)) by (by intros []).
    rewrite bool_decide_eq_true_2 by done. done.
  - rewrite (bool_decide_eq_true_2 (_ ≠ _)) by done.
    rewrite bool_decide_eq_false_2 by done. by rewrite app_nil_r.
Qed.

Lemma showResult_frame (o : outcome) (st : option stats) (p : page) :
  js (showResult o st p) = js p ∧ env (showResult o st p) = env p ∧
  dom (showResult o st p) btnStart = dom p btnStart ∧
  dom (showResult o st p) display = dom p display.
Proof.
  unfold showResult. destruct o, st; page_simpl; done.
Qed.

Lemma response_observed (i : nat) (r : fetch_result) (p : page) :
  one_countdown p →
  observe (on_response i r p) = observe p ∧
  network (env (on_response i r p)) = network (env p) ∧
  one_countdown (on_response i r p).
Proof.
  intros Hone. unfold on_response.
  destruct (inflight (env p) !! i) as [o|]; [|done].
  destruct (report_settled o r (resume i p)) as [st q] eqn:Hq.
  destruct (showResult_frame o st q) as (Hjs & Henv & Hbtn & _).
  assert (Hframe : js q = js p ∧ dom q = dom p ∧
                   intervals (env q) = intervals (env p) ∧
                   beforeunload (env q) = beforeunload (env p) ∧
                   network (env q) = network (env p)).
  { unfold report_settled in Hq.
    destruct r; injection Hq as <- <-; page_simpl; done. }
  destruct Hframe as (Hjs' & Hdom' & Hivs & Hbu & Hnet).
  unfold observe, ticking, one_countdown.
  rewrite Hjs, Henv, Hbtn, Hjs', Hdom', Hivs, Hbu, Hnet. done.
Qed.

Lemma click_start_observed (p : page) :
  one_countdown p →
  observe (on_click_start p) = timer_step ClickStart (observe p) ∧
  network (env (on_click_start p)) = network (env p) ∧
  one_countdown (on_click_start p).
Proof.
  intros Hone. unfold on_click_start, timer_step.
  cbn [observe o_start_disabled].
  destruct (disabled (dom p btnStart)); [done|].
  by apply start_observed.
Qed.

(** On a page with at most one countdown, every action does to the
    observation what [timer_step] says, sends what [timer_reports] says, and
    keeps at most one countdown. *)
Lemma perform_observed (a : action) (p : page) :
  one_countdown p →
  observe (perform a p) = timer_step a (observe p) ∧
  network (env (perform a p)) =
    network (env p) ++ timer_reports a (observe p) ∧
  one_countdown (perform a p).
Proof.
  intros Hone. destruct a; cbn [perform timer_step timer_reports];
    rewrite ?app_nil_r.
  - by apply start_observed.
  - by apply tick_observed.
  - by apply abandon_observed.
  - by apply reset_observed.
  - by apply unload_observed.
  - by apply response_observed.
  - by apply click_start_observed.
  - by apply again_observed.
Qed.

Lemma observe_initial (html : node → element) :
  observe (initial_page html) =
  {| o_state := Idle; o_seconds := TOTAL_SECONDS; o_locked := false;
     o_guard := false; o_ticking := false;
     o_start_disabled := disabled (html btnStart) |}.
Proof. unfold initial_page, observe, ticking. page_simpl. done. Qed.

Lemma one_countdown_initial (html : node → element) :
  one_countdown (initial_page html).
Proof. left. unfold initial_page. page_simpl. done. Qed.

Lemma run_observed (acts : list action) (p : page) :
  one_countdown p →
  observe (run acts p) = timer_run acts (observe p) ∧
  network (env (run acts p)) =
    network (env p) ++ reports_of acts (observe p) ∧
  one_countdown (run acts p).
Proof.
  revert p. induction acts as [|a acts IH]; intros p Hone.
  - cbn. by rewrite app_nil_r.
  - destruct (perform_observed a p Hone) as (Hobs & Hnet & Hone').
    destruct (IH _ Hone') as (IHobs & IHnet & IHone).
    rewrite run_cons. cbn [timer_run foldl reports_of].
    rewrite IHobs, IHnet, Hobs, Hnet, <- app_assoc. done.
Qed.

Lemma emitted_observed (acts : list action) (p : page) :
  one_countdown p → emitted acts p = reports_of acts (observe p).
Proof.
  intros Hone. unfold emitted.
  destruct (run_observed acts p Hone) as (_ & -> & _).
  apply drop_app_length.
Qed.

(** ** The unload guard *)

(** C10: when the session is locked, or is idle or done, the
    [beforeunload] handler returns at once: the page (session variables,
    requests sent, everything else) and the event (no [preventDefault], no
    [returnValue]) are as they were. *)
Theorem unload_handler_ignored (e : unload_event) (p : page) :
  sessionLocked (js p) = true ∨
    timerState (js p) = Idle ∨ timerState (js p) = Done →
  handleBeforeUnload e p = (p, e).
Proof.
  intros H. unfold handleBeforeUnload.
  destruct (sessionLocked (js p)); [done|]. cbn [orb].
  rewrite bool_decide_eq_true_2; [done|].
  destruct H as [? | [-> | ->]]; done.
Qed.

Lemma unload_handler_ignored_witness :
  handleBeforeUnload fresh_unload_event blank_page
  = (blank_page, fresh_unload_event).
Proof.
  apply unload_handler_ignored. right. left. reflexivity.
Defined.

Lemma startTimer_running (p : page) :
  timerState (js (startTimer p)) = Running.
Proof.
  unfold startTimer. destruct (decide (timerState (js p) = Running)); done.
Qed.

(** C8: [startTimer] on a running session returns the page as it is:
    seconds, state, lock flag, interval handle and the live intervals are
    unchanged, so no second countdown begins; starting twice is starting
    once. *)
Theorem start_while_running_is_noop (p : page) :
  (timerState (js p) = Running → startTimer p = p) ∧
  startTimer (startTimer p) = startTimer p.
Proof.
  assert (Hnoop : ∀ q, timerState (js q) = Running → startTimer q = q).
  { intros q Hq. unfold startTimer. by rewrite decide_True. }
  split; [apply Hnoop|]. apply Hnoop, startTimer_running.
Qed.

Lemma start_while_running_is_noop_witness :
  startTimer (startTimer blank_page) = startTimer blank_page.
Proof.
  apply (proj1 (start_while_running_is_noop (startTimer blank_page))).
  reflexivity.
Defined.

(** C4: [abandonSession] on a running session sends exactly one request, a
    loss report, ends in [done] with the lock flag set and the unload guard
    unregistered; from then on the unload handler, however often it runs or
    is dispatched, sends nothing and changes nothing. *)
Theorem abandon_reports_one_loss (p : page) :
  timerState (js p) = Running →
  let q := abandonSession p in
  network (env q) = network (env p) ++ [loss_request false] ∧
  timerState (js q) = Done ∧
  sessionLocked (js q) = true ∧
  beforeunload (env q) = false ∧
  (∀ e, handleBeforeUnload e q = (q, e)) ∧
  (∀ n, run (replicate n Unload) q = q).
Proof.
  intros Hrun q.
  assert (Hq : network (env q) = network (env p) ++ [loss_request false] ∧
               timerState (js q) = Done ∧ sessionLocked (js q) = true ∧
               beforeunload (env q) = false).
  { subst q. unfold abandonSession. rewrite decide_False by (by intros []).
    page_simpl. done. }
  destruct Hq as (Hnet & Hdone & Hlock & Hguard).
  repeat split; try done.
  - intros e. unfold handleBeforeUnload. by rewrite Hlock.
  - intros n. induction n as [|n IH]; [done|].
    rewrite replicate_S, run_cons. cbn [perform]. unfold on_beforeunload.
    by rewrite Hguard.
Qed.

Lemma abandon_reports_one_loss_witness :
  network (env (abandonSession (startTimer blank_page))) =
    [loss_request false].
Proof.
  apply (abandon_reports_one_loss (startTimer blank_page)). reflexivity.
Defined.

(** C1: evaluated on a fresh session, the first [beforeunload] sends one
    loss report and leaves the lock flag unset; a second one right after
    sends a second loss report, and a countdown that then runs to the end
    sends a win report as well. *)
Theorem unload_twice_reports_twice :
  network (env (run [Start; Unload] blank_page)) = [loss_request true] ∧
  sessionLocked (js (run [Start; Unload] blank_page)) = false ∧
  network (env (run [Start; Unload; Unload] blank_page)) =
    [loss_request true; loss_request true] ∧
  network (env (run (Start :: Unload :: replicate 1500 Tick) blank_page)) =
    [loss_request true; win_request].
Proof. repeat split; vm_compute; reflexivity. Qed.

(** ** Counting down *)

Lemma timer_run_app (acts1 acts2 : list action) (o : observation) :
  timer_run (acts1 ++ acts2) o = timer_run acts2 (timer_run acts1 o).
Proof. apply foldl_app. Qed.

Lemma timer_run_cons (a : action) (acts : list action) (o : observation) :
  timer_run (a :: acts) o = timer_run acts (timer_step a o).
Proof. reflexivity. Qed.

Lemma reports_of_app (acts1 acts2 : list action) (o : observation) :
  reports_of (acts1 ++ acts2) o =
  reports_of acts1 o ++ reports_of acts2 (timer_run acts1 o).
Proof.
  revert o. induction acts1 as [|a acts1 IH]; intros o; [done|].
  cbn [app reports_of]. rewrite IH, <- app_assoc. done.
Qed.

(** While more than [k] seconds are left, [k] ticks only take [k] seconds
    off and report nothing. *)
Lemma timer_run_ticks (k : nat) (o : observation) :
  o_ticking o = true → Z.of_nat k < o_seconds o →
  timer_run (replicate k Tick) o =
    {| o_state := o_state o; o_seconds := o_seconds o - Z.of_nat k;
       o_locked := o_locked o; o_guard := o_guard o;
       o_ticking := true; o_start_disabled := o_start_disabled o |} ∧
  reports_of (replicate k Tick) o = [].
Proof.
  revert o. induction k as [|k IH]; intros o Htick Hk.
  - cbn. rewrite Z.sub_0_r, <- Htick. by destruct o.
  - rewrite replicate_S, timer_run_cons. cbn [reports_of].
    cbn [timer_step timer_reports]. rewrite Htick. cbn [andb].
    unfold ticked. destruct (Z.leb_spec (o_seconds o - 1) 0) as [Hle | Hgt];
      [lia|].
    rewrite Htick. cbn [app].
    match goal with |- context [timer_run _ ?o'] =>
      destruct (IH o') as [IHrun IHrep]; [done | cbn; lia |] end.
    rewrite IHrun, IHrep. cbn. split; [|done]. f_equal. lia.
Qed.

(** The tick that takes the last second ends the session with a win. *)
Lemma timer_step_last_tick (o : observation) :
  o_ticking o = true → o_seconds o = 1 →
  timer_step Tick o =
    {| o_state := Done; o_seconds := 0; o_locked := true; o_guard := false;
       o_ticking := false; o_start_disabled := o_start_disabled o |} ∧
  timer_reports Tick o = [win_request].
Proof.
  intros Htick Hone. cbn [timer_step timer_reports]. unfold ticked.
  rewrite Htick, Hone. done.
Qed.

Lemma observe_fresh_session (html : node → element) :
  observe (startTimer (initial_page html)) =
    {| o_state := Running; o_seconds := TOTAL_SECONDS; o_locked := false;
       o_guard := true; o_ticking := true; o_start_disabled := true |} ∧
  network (env (startTimer (initial_page html))) = [] ∧
  one_countdown (startTimer (initial_page html)).
Proof.
  destruct (start_observed _ (one_countdown_initial html))
    as (Hobs & Hnet & Hone).
  rewrite Hobs, Hnet, observe_initial. split; [done|]. split; [|done].
  unfold initial_page. page_simpl. done.
Qed.

Lemma observe_fields (p : page) (o : observation) :
  observe p = o →
  timerState (js p) = o_state o ∧ secondsLeft (js p) = o_seconds o ∧
  sessionLocked (js p) = o_locked o ∧ beforeunload (env p) = o_guard o ∧
  ticking p = o_ticking o ∧
  disabled (dom p btnStart) = o_start_disabled o.
Proof. by intros <-. Qed.

Lemma not_ticking_no_intervals (p : page) :
  ticking p = false → intervals (env p) = [].
Proof. unfold ticking. by destruct (intervals (env p)). Qed.

(** A fresh session after [k] ticks, for [k] below the full duration. *)
Lemma fresh_session_counting (html : node → element) (k : nat) :
  Z.of_nat k < TOTAL_SECONDS →
  let q := run (replicate k Tick) (startTimer (initial_page html)) in
  observe q =
    {| o_state := Running; o_seconds := TOTAL_SECONDS - Z.of_nat k;
       o_locked := false; o_guard := true; o_ticking := true;
       o_start_disabled := true |} ∧
  network (env q) = [] ∧ one_countdown q.
Proof.
  intros Hk q. subst q.
  destruct (observe_fresh_session html) as (Hobs & Hnet & Hone).
  destruct (run_observed (replicate k Tick) _ Hone) as (Hobs' & Hnet' & Hone').
  rewrite Hobs', Hnet', Hnet, Hobs.
  match goal with |- context [timer_run _ ?o] =>
    destruct (timer_run_ticks k o) as [Hrun Hrep]; [done | exact Hk |] end.
  rewrite Hrun, Hrep. done.
Qed.

(** A fresh session after exactly the full duration. *)
Lemma fresh_session_complete (html : node → element) :
  let q := run (replicate 1500 Tick) (startTimer (initial_page html)) in
  observe q =
    {| o_state := Done; o_seconds := 0; o_locked := true; o_guard := false;
       o_ticking := false; o_start_disabled := true |} ∧
  network (env q) = [win_request].
Proof.
  intros q. subst q. change 1500%nat with (S 1499).
  rewrite replicate_S_end, run_snoc.
  destruct (fresh_session_counting html 1499) as (Hobs & Hnet & Hone);
    [done|].
  destruct (perform_observed Tick _ Hone) as (Hobs' & Hnet' & _).
  rewrite Hobs', Hnet', Hnet, Hobs.
  match goal with |- context [timer_step Tick ?o] =>
    destruct (timer_step_last_tick o) as [Hstep Hrep]; [done | done |] end.
  rewrite Hstep, Hrep. split; reflexivity.
Qed.

(** C3: a fresh session is running with the full 1500 seconds; after any
    [k < 1500] ticks it is still running, has reported nothing and keeps its
    unload guard; after exactly 1500 ticks it is done, the requests sent are
    exactly one win report, the unload guard is unregistered and the
    countdown has stopped. *)
Theorem full_countdown_reports_one_win (html : node → element) :
  let fresh := startTimer (initial_page html) in
  (timerState (js fresh) = Running ∧
   secondsLeft (js fresh) = TOTAL_SECONDS ∧ TOTAL_SECONDS = 1500) ∧
  (∀ k, (k < 1500)%nat →
     let q := run (replicate k Tick) fresh in
     timerState (js q) = Running ∧ network (env q) = [] ∧
     beforeunload (env q) = true) ∧
  let q := run (replicate 1500 Tick) fresh in
  timerState (js q) = Done ∧ network (env q) = [win_request] ∧
  beforeunload (env q) = false ∧ intervals (env q) = [].
Proof.
  intros fresh. subst fresh. split; [|split].
  - destruct (observe_fresh_session html) as (Hobs & _).
    apply observe_fields in Hobs as (Hst & Hsec & _).
    split; [exact Hst|]. split; [exact Hsec | reflexivity].
  - intros k Hk q.
    destruct (fresh_session_counting html k) as (Hobs & Hnet & _);
      [unfold TOTAL_SECONDS; lia|].
    apply observe_fields in Hobs as (Hst & _ & _ & Hguard & _).
    split; [exact Hst|]. split; [exact Hnet | exact Hguard].
  - intros q. destruct (fresh_session_complete html) as (Hobs & Hnet).
    apply observe_fields in Hobs as (Hst & _ & _ & Hguard & Htick & _).
    split; [exact Hst|]. split; [exact Hnet|]. split; [exact Hguard|].
    apply not_ticking_no_intervals, Htick.
Qed.

Lemma full_countdown_reports_one_win_witness :
  let q := run (replicate 7 Tick) (startTimer blank_page) in
  timerState (js q) = Running ∧ network (env q) = [] ∧
  beforeunload (env q) = true.
Proof.
  apply (proj1 (proj2 (full_countdown_reports_one_win (λ _, blank_element)))).
  lia.
Defined.

(** ** Danger mode *)

Lemma danger_in_danger_classes (l : list string) :
  "danger" ∈ danger_classes l ∧ "running" ∉ danger_classes l.
Proof.
  unfold danger_classes. rewrite !elem_of_classList_remove.
  rewrite elem_of_classList_add. split; [|tauto].
  split; [discriminate | by left].
Qed.


Lemma display_classes_startTimer (p : page) :
  timerState (js p) ≠ Running →
  classList (dom (startTimer p) display) =
  classList_remove "danger"
    (classList_add "running" (classList (dom p display))).
Proof.
  intros Hrun. unfold startTimer. rewrite decide_False by done.
  page_simpl. done.
Qed.






(** ** Failed reports *)

Lemma abandonSession_running (p : page) :
  timerState (js p) = Running →
  js (abandonSession p) =
    {| timerState := Done; secondsLeft := secondsLeft (js p);
       intervalId := intervalId (js p); sessionLocked := true |} ∧
  inflight (env (abandonSession p)) = inflight (env p) ++ [Loss] ∧
  ∀ n, n ≠ statusEl → dom (abandonSession p) n = dom p n.
Proof.
  intros Hrun. unfold abandonSession.
  rewrite decide_False by (by intros []). page_simpl.
  split; [done|]. split; [done|]. intros n Hn.
  by rewrite dom_with_node_ne by congruence.
Qed.

Lemma tick_last_second (p : page) :
  secondsLeft (js p) = 1 →
  js (tick p) =
    {| timerState := Done; secondsLeft := 0;
       intervalId := intervalId (js p); sessionLocked := true |} ∧
  inflight (env (tick p)) = inflight (env p) ++ [Win] ∧
  ∀ n, stat_node n = true → dom (tick p) n = dom p n.
Proof.
  intros Hsec. rewrite js_tick, env_tick, Hsec. cbn.
  split; [done|]. split; [done|]. intros n Hn.
  unfold tick. page_simpl. rewrite Hsec. cbn [Z.sub Z.leb]. cbn.
  page_simpl. destruct n; try discriminate Hn; page_simpl; reflexivity.
Qed.

(** What the arrival of a network failure does to a pending report. *)
Lemma response_failure (i : nat) (o : outcome) (err : string) (p : page) :
  inflight (env p) !! i = Some o →
  let q := on_response i (NetworkError err) p in
  js q = js p ∧
  network (env q) = network (env p) ∧
  console (env q) = console (env p) ++ [(failure_message o, err)] ∧
  ("hidden" ∉ classList (dom q resultOverlay)) ∧
  content (dom q result_title) =
    Text (match o with Win => "Victory!" | Loss => "Defeated." end) ∧
  ∀ n, stat_node n = true → dom q n = dom p n.
Proof.
  intros Hi q. subst q. unfold on_response. rewrite Hi.
  cbn [report_settled]. unfold showResult.
  destruct o; page_simpl.
  all: repeat (split; [first [done | rewrite elem_of_classList_remove; tauto]|]).
  all: intros n Hn; destruct n; try discriminate Hn; page_simpl; reflexivity.
Qed.

(** C6: when the call behind a report fails with a network error, the
    report function logs the failure and resolves to no stats instead of
    throwing; whether the report came from the last tick or from an abandon,
    the session is done before and after the failure arrives, and the result
    overlay is then shown with the six counters left as they were. *)
Theorem report_failure_is_stats_unavailable
    (o : outcome) (err : string) (p : page) :
  let unavailable q :=
    timerState (js q) = Done ∧
    ("hidden" ∉ classList (dom q resultOverlay)) ∧
    (∀ n, stat_node n = true → dom q n = dom p n) in
  (fst (report_settled o (NetworkError err) p) = None ∧
   console (env (snd (report_settled o (NetworkError err) p))) =
     console (env p) ++ [(failure_message o, err)]) ∧
  (ticking p = true → secondsLeft (js p) = 1 →
   timerState (js (on_interval p)) = Done ∧
   unavailable
     (on_response (length (inflight (env p))) (NetworkError err)
        (on_interval p))) ∧
  (timerState (js p) = Running →
   timerState (js (abandonSession p)) = Done ∧
   unavailable
     (on_response (length (inflight (env p))) (NetworkError err)
        (abandonSession p))).
Proof.
  intros unavailable. subst unavailable. cbv beta.
  split; [done|]. split.
  - intros Htick Hsec.
    destruct (ticking_cases p) as [[_ Hno] | [-> _]]; [congruence|].
    destruct (tick_last_second p Hsec) as (Hjs & Hin & Hdom).
    destruct (response_failure (length (inflight (env p))) Win err (tick p))
      as (Hjs' & _ & _ & Hov & _ & Hst).
    { rewrite Hin. apply list_lookup_middle. reflexivity. }
    rewrite Hjs', Hjs. split; [done|]. split; [done|]. split; [exact Hov|].
    intros n Hn. by rewrite Hst, Hdom.
  - intros Hrun.
    destruct (abandonSession_running p Hrun) as (Hjs & Hin & Hdom).
    destruct (response_failure (length (inflight (env p))) Loss err
                (abandonSession p)) as (Hjs' & _ & _ & Hov & _ & Hst).
    { rewrite Hin. apply list_lookup_middle. reflexivity. }
    rewrite Hjs', Hjs. split; [done|]. split; [done|]. split; [exact Hov|].
    intros n Hn. rewrite Hst by done. apply Hdom.
    intros ->. discriminate Hn.
Qed.

Lemma report_failure_is_stats_unavailable_witness :
  timerState (js (startTimer blank_page)) = Running ∧
  timerState (js (abandonSession (startTimer blank_page))) = Done.
Proof.
  split; [reflexivity|].
  refine (proj1 (proj2 (proj2 (report_failure_is_stats_unavailable
                   Loss "TypeError: Failed to fetch"
                   (startTimer blank_page))) _)).
  reflexivity.
Defined.

(** ** Reset *)

(** C9: on a page reached from the initial one in which the session is
    done, [resetTimer] restores the full 1500 seconds, the idle state and an
    unset lock flag, and leaves no unload guard and no live interval; from
    there every sequence of actions, a start followed by an abandon or an
    unload among them, gives the observations and sends the requests it
    gives on a freshly loaded page. *)
Theorem reset_rearms_session (html0 : node → element) (acts0 : list action) :
  let p := run acts0 (initial_page html0) in
  timerState (js p) = Done →
  let r := resetTimer p in
  (secondsLeft (js r) = TOTAL_SECONDS ∧ timerState (js r) = Idle ∧
   sessionLocked (js r) = false ∧ beforeunload (env r) = false ∧
   intervals (env r) = []) ∧
  (emitted [Start; Abandon] r = [loss_request false] ∧
   emitted [Start; Unload] r = [loss_request true]) ∧
  ∀ html acts,
    disabled (html btnStart) = false →
    observe (run acts r) = observe (run acts (initial_page html)) ∧
    emitted acts r = emitted acts (initial_page html).
Proof.
  intros p Hdone r.
  destruct (run_observed acts0 _ (one_countdown_initial html0))
    as (_ & _ & Hone). fold p in Hone.
  destruct (reset_observed p Hone) as (Hobs & _ & Hone'). fold r in Hobs, Hone'.
  split; [|split].
  - apply observe_fields in Hobs as (Hst & Hsec & Hlock & Hguard & Htick & _).
    split; [exact Hsec|]. split; [exact Hst|]. split; [exact Hlock|].
    split; [exact Hguard|]. apply not_ticking_no_intervals, Htick.
  - rewrite !emitted_observed, Hobs by done. split; reflexivity.
  - intros html acts Hbtn.
    pose proof (observe_initial html) as Hinit. rewrite Hbtn in Hinit.
    destruct (run_observed acts r Hone') as (-> & _ & _).
    destruct (run_observed acts _ (one_countdown_initial html))
      as (-> & _ & _).
    rewrite !emitted_observed, Hobs, Hinit
      by auto using one_countdown_initial.
    split; reflexivity.
Qed.

Lemma reset_rearms_session_witness :
  timerState (js (run [Start; Abandon] blank_page)) = Done ∧
  secondsLeft (js (resetTimer (run [Start; Abandon] blank_page))) =
    TOTAL_SECONDS.
Proof.
  split; [reflexivity|].
  refine (proj1 (proj1 (reset_rearms_session (λ _, blank_element)
                          [Start; Abandon] _))).
  reflexivity.
Defined.

(** ** The range of the seconds counter *)

Lemma timer_step_upper (a : action) (o : observation) :
  o_seconds o ≤ TOTAL_SECONDS → o_seconds (timer_step a o) ≤ TOTAL_SECONDS.
Proof.
  intros Hle. destruct a; cbn [timer_step]; unfold started, ticked, abandoned;
    repeat case_match; cbn [o_seconds ready]; lia.
Qed.

Ltac inv_facts :=
  repeat match goal with
         | H : ?x = ?x → _ |- _ => specialize (H eq_refl)
         | H : _ ∧ _ |- _ => destruct H
         end;
  repeat split; intros;
  first [ congruence | lia
        | exfalso; match goal with n : ¬ _ |- _ => apply n; congruence end ].

Lemma session_inv_step (a : action) (o : observation) :
  through_ui a = true → session_inv o → session_inv (timer_step a o).
Proof.
  unfold session_inv. intros Hui Hinv.
  destruct o as [st secs lk gd tk dis].
  cbn [o_state o_seconds o_locked o_guard o_ticking o_start_disabled] in *.
  destruct a; try discriminate Hui; cbn [timer_step];
    unfold started, ticked, abandoned, ready;
    cbn [o_state o_seconds o_locked o_guard o_ticking o_start_disabled];
    repeat (case_match;
      cbn [o_state o_seconds o_locked o_guard o_ticking o_start_disabled]
        in *);
    repeat match goal with
           | Hle : (_ <=? _) = true |- _ => rewrite Z.leb_le in Hle
           | Hgt : (_ <=? _) = false |- _ => rewrite Z.leb_gt in Hgt
           end;
    unfold TOTAL_SECONDS in *; destruct st, tk, dis; inv_facts.
Qed.

Lemma session_inv_initial (html : node → element) :
  session_inv (observe (initial_page html)).
Proof.
  rewrite observe_initial. unfold session_inv, TOTAL_SECONDS. cbn.
  repeat split; intros; try done; lia.
Qed.

Lemma session_inv_run (acts : list action) (o : observation) :
  forallb through_ui acts = true → session_inv o →
  session_inv (timer_run acts o).
Proof.
  revert o. induction acts as [|a acts IH]; intros o Hui Hinv; [done|].
  cbn [forallb] in Hui. apply andb_prop in Hui as [Ha Hacts].
  rewrite timer_run_cons. by apply IH, session_inv_step.
Qed.

Lemma timer_run_upper (acts : list action) (o : observation) :
  o_seconds o ≤ TOTAL_SECONDS → o_seconds (timer_run acts o) ≤ TOTAL_SECONDS.
Proof.
  revert o. induction acts as [|a acts IH]; intros o Hle; [done|].
  rewrite timer_run_cons. by apply IH, timer_step_upper.
Qed.

(** C2, as stated, fails: the four operations alone, with [startTimer]
    called again on a finished session that was not reset, take the counter
    below zero. *)
Lemma restart_after_done_goes_negative :
  let acts := Start :: replicate 1500 Tick ++ [Start; Tick] in
  forallb timer_operation acts = true ∧
  secondsLeft (js (run acts blank_page)) = -1 ∧
  ¬ (0 ≤ secondsLeft (js (run acts blank_page)) ≤ TOTAL_SECONDS).
Proof.
  intros acts.
  assert (Hneg : secondsLeft (js (run acts blank_page)) = -1)
    by (vm_compute; reflexivity).
  split; [vm_compute; reflexivity|]. split; [exact Hneg|].
  rewrite Hneg. lia.
Qed.

(** C2 (amended): [secondsLeft] is an integer that never exceeds 1500 in any
    state reachable from the initial idle page; and it stays within
    [0, 1500] in every state reached by ticks, abandons, resets, unloads and
    report responses when the session is started through the start button,
    which [startTimer] disables and only [resetTimer] enables again. *)
Theorem secondsLeft_bounded (html : node → element) (acts : list action) :
  let p := run acts (initial_page html) in
  secondsLeft (js p) ≤ TOTAL_SECONDS ∧
  (forallb through_ui acts = true →
   0 ≤ secondsLeft (js p) ≤ TOTAL_SECONDS).
Proof.
  intros p.
  destruct (run_observed acts _ (one_countdown_initial html))
    as (Hobs & _ & _). fold p in Hobs.
  apply observe_fields in Hobs as (_ & -> & _).
  split.
  - apply timer_run_upper. by rewrite observe_initial.
  - intros Hui.
    apply (session_inv_run acts _ Hui (session_inv_initial html)).
Qed.

Lemma secondsLeft_bounded_witness :
  let acts := ClickStart :: replicate 3 Tick ++ [ClickStart; Abandon] in
  forallb through_ui acts = true ∧
  0 ≤ secondsLeft (js (run acts blank_page)) ≤ TOTAL_SECONDS.
Proof.
  intros acts. split; [reflexivity|].
  refine (proj2 (secondsLeft_bounded (λ _, blank_element) acts) _).
  reflexivity.
Defined.

(** * Further properties *)

(** ** theme.js: what [applyTheme] leaves behind *)

Lemma foldl_classList_remove (ts body : list string) :
  foldl (λ b t, classList_remove t b) body ts = filter (λ c, c ∉ ts) body.
Proof.
  revert body. induction ts as [|t ts IH]; intros body; cbn [foldl].
  - induction body as [|c body IHb]; [done|].
    rewrite filter_cons_True by apply not_elem_of_nil. by f_equal.
  - rewrite IH. unfold classList_remove. rewrite list_filter_filter.
    apply list_filter_iff. intros c. rewrite not_elem_of_cons. tauto.
Qed.

Lemma remove_theme_classes_filter (body : list string) :
  remove_theme_classes body = filter (λ c, c ∉ VALID_THEMES) body.
Proof. apply foldl_classList_remove. Qed.

Lemma filter_non_theme_idemp (body : list string) (t : string) :
  t ∈ VALID_THEMES →
  filter (λ c, c ∉ VALID_THEMES)
    (filter (λ c, c ∉ VALID_THEMES) body ++ [t]) =
  filter (λ c, c ∉ VALID_THEMES) body.
Proof.
  intros Ht. rewrite filter_app, list_filter_filter.
  rewrite filter_cons_False, filter_nil, app_nil_r by tauto.
  apply list_filter_iff. tauto.
Qed.

Lemma normalize_theme_idemp (name : string) :
  normalize_theme (normalize_theme name) = normalize_theme name.
Proof.
  unfold normalize_theme at 1.
  by rewrite bool_decide_eq_true_2 by apply normalize_theme_valid.
Qed.

Lemma normalize_theme_keeps_valid (name : string) :
  name ∈ VALID_THEMES → normalize_theme name = name.
Proof. intros H. unfold normalize_theme. by rewrite bool_decide_eq_true_2. Qed.

Lemma applyTheme_normalize (name : string) (doc : document) :
  applyTheme (normalize_theme name) doc = applyTheme name doc.
Proof. unfold applyTheme. by rewrite normalize_theme_idemp. Qed.

Lemma valid_theme_nonempty (t : string) : t ∈ VALID_THEMES → t ≠ "".
Proof.
  intros Ht ->. revert Ht.
  apply (bool_decide_unpack ("" ∉ VALID_THEMES)). vm_compute. exact I.
Qed.

Lemma applyTheme_fields (name : string) (doc : document) (body : list string) :
  app_body doc = Some body →
  app_body (applyTheme name doc) =
    Some (filter (λ c, c ∉ VALID_THEMES) body ++ [normalize_theme name]) ∧
  theme_pills (applyTheme name doc) =
    update_pill (normalize_theme name) <$> theme_pills doc ∧
  localStorage (applyTheme name doc) =
    <[THEME_KEY := normalize_theme name]> (localStorage doc).
Proof.
  intros Hbody. unfold applyTheme. rewrite Hbody.
  cbn [app_body theme_pills localStorage].
  split; [|done]. f_equal. rewrite remove_theme_classes_filter.
  unfold classList_add. rewrite bool_decide_eq_false_2; [done|].
  rewrite list_elem_of_filter. intros [Hnot _].
  apply Hnot, normalize_theme_valid.
Qed.

(** X1: on a page with the root element, [applyTheme] leaves on it the
    classes that are not theme markers, in their order, followed by the one
    theme class, which is the requested theme when that is valid and the
    default otherwise; that theme is what is stored. *)
Theorem applyTheme_body_and_store
    (name : string) (doc : document) (body : list string) :
  app_body doc = Some body →
  let theme := if bool_decide (name ∈ VALID_THEMES)
               then name else DEFAULT_THEME in
  app_body (applyTheme name doc) =
    Some (filter (λ c, c ∉ VALID_THEMES) body ++ [theme]) ∧
  localStorage (applyTheme name doc) !! THEME_KEY = Some theme ∧
  (NoDup body → ∀ body', app_body (applyTheme name doc) = Some body' →
                 NoDup body').
Proof.
  intros Hbody theme.
  destruct (applyTheme_fields name doc body Hbody) as (Hb & _ & Hs).
  fold (normalize_theme name) in theme. subst theme.
  split; [exact Hb|]. split; [rewrite Hs; apply lookup_insert_eq|].
  intros Hnd body' Hb'. rewrite Hb in Hb'. injection Hb' as <-.
  apply NoDup_app. split; [by apply NoDup_filter|]. split.
  - intros c Hc Hc'. apply list_elem_of_singleton in Hc' as ->.
    apply list_elem_of_filter in Hc as [Hnot _].
    apply Hnot, normalize_theme_valid.
  - apply NoDup_singleton.
Qed.

Lemma applyTheme_body_and_store_witness :
  app_body (applyTheme "theme-f1"
              {| app_body := Some ["page"; "theme-nyc"; "dark"];
                 theme_pills := []; localStorage := ∅ |}) =
    Some ["page"; "dark"; "theme-f1"].
Proof.
  refine (proj1 (applyTheme_body_and_store "theme-f1"
                   {| app_body := Some ["page"; "theme-nyc"; "dark"];
                      theme_pills := []; localStorage := ∅ |}
                   ["page"; "theme-nyc"; "dark"] _)).
  reflexivity.
Defined.

Lemma classList_toggle_idemp (c : string) (force : bool) (l : list string) :
  classList_toggle c force (classList_toggle c force l) =
  classList_toggle c force l.
Proof.
  destruct force; cbn [classList_toggle].
  - apply classList_add_present, elem_of_classList_add. by left.
  - apply classList_remove_absent. rewrite elem_of_classList_remove. tauto.
Qed.

Lemma update_pill_idemp (t : string) (btn : pill) :
  update_pill t (update_pill t btn) = update_pill t btn.
Proof.
  unfold update_pill. cbn [dataset_theme pill_classes].
  by rewrite classList_toggle_idemp.
Qed.

(** X2: applying a theme twice is applying it once, on every page and for
    every argument. *)
Theorem applyTheme_idempotent (name : string) (doc : document) :
  applyTheme name (applyTheme name doc) = applyTheme name doc.
Proof.
  destruct (app_body doc) as [body|] eqn:Hbody.
  - destruct (applyTheme_fields name doc body Hbody) as (Hb & Hp & Hs).
    destruct (applyTheme_fields name _ _ Hb) as (Hb2 & Hp2 & Hs2).
    rewrite filter_non_theme_idemp in Hb2 by apply normalize_theme_valid.
    rewrite Hp, <- list_fmap_compose in Hp2.
    rewrite Hs, insert_insert_eq in Hs2.
    destruct (applyTheme name (applyTheme name doc)) as [b2 p2 s2].
    destruct (applyTheme name doc) as [b1 p1 s1].
    cbn in *. subst. f_equal. apply list_fmap_ext.
    intros i btn _. apply update_pill_idemp.
  - unfold applyTheme at 2. rewrite Hbody. unfold applyTheme.
    by rewrite Hbody.
Qed.

Lemma pill_active_update (t : string) (btn : pill) :
  pill_active (update_pill t btn) = bool_decide (dataset_theme btn = Some t).
Proof.
  unfold pill_active, update_pill. cbn [pill_classes].
  destruct (bool_decide (dataset_theme btn = Some t)); cbn [classList_toggle].
  - apply bool_decide_eq_true_2, elem_of_classList_add. by left.
  - apply bool_decide_eq_false_2. rewrite elem_of_classList_remove. tauto.
Qed.

(** X3: of two theme changes in a row the last one decides: the root
    element's classes and the stored selection are those the second call
    alone would give, and the same pills are shown as selected. *)
Theorem applyTheme_last_wins (a b : string) (doc : document) :
  app_body (applyTheme b (applyTheme a doc)) = app_body (applyTheme b doc) ∧
  localStorage (applyTheme b (applyTheme a doc)) =
    localStorage (applyTheme b doc) ∧
  pill_active <$> theme_pills (applyTheme b (applyTheme a doc)) =
    pill_active <$> theme_pills (applyTheme b doc).
Proof.
  destruct (app_body doc) as [body|] eqn:Hbody.
  - destruct (applyTheme_fields a doc body Hbody) as (Ha & Hpa & Hsa).
    destruct (applyTheme_fields b doc body Hbody) as (Hb & Hpb & Hsb).
    destruct (applyTheme_fields b _ _ Ha) as (Hab & Hpab & Hsab).
    rewrite filter_non_theme_idemp in Hab by apply normalize_theme_valid.
    rewrite Hab, Hb, Hsab, Hsb, Hsa, insert_insert_eq, Hpab, Hpb, Hpa.
    split; [done|]. split; [done|].
    rewrite <- !list_fmap_compose. apply list_fmap_ext. intros i btn _.
    cbn. by rewrite !pill_active_update.
  - assert (Ha : applyTheme a doc = doc)
      by (unfold applyTheme; by rewrite Hbody).
    by rewrite Ha.
Qed.

(** X4: on a page with the root element, [applyTheme] keeps every pill and
    its [data-theme]; afterwards a pill has the ['active'] class exactly
    when its [data-theme] is the theme now applied, and its other classes
    are as before. *)
Theorem applyTheme_marks_matching_pills
    (name : string) (doc : document) (i : nat) (btn : pill) :
  is_Some (app_body doc) →
  theme_pills doc !! i = Some btn →
  length (theme_pills (applyTheme name doc)) = length (theme_pills doc) ∧
  ∃ btn', theme_pills (applyTheme name doc) !! i = Some btn' ∧
    dataset_theme btn' = dataset_theme btn ∧
    ("active" ∈ pill_classes btn' ↔
       dataset_theme btn = Some (normalize_theme name)) ∧
    ∀ c, c ≠ "active" → (c ∈ pill_classes btn' ↔ c ∈ pill_classes btn).
Proof.
  intros [body Hbody] Hi.
  destruct (applyTheme_fields name doc body Hbody) as (_ & Hp & _).
  rewrite Hp, length_fmap, list_lookup_fmap, Hi. split; [done|].
  eexists. split; [reflexivity|]. split; [reflexivity|]. split.
  - pose proof (pill_active_update (normalize_theme name) btn) as Hact.
    unfold pill_active in Hact.
    rewrite <- (bool_decide_spec ("active" ∈ _)), Hact.
    apply bool_decide_spec.
  - intros c Hc. unfold update_pill. cbn [pill_classes].
    destruct (bool_decide _); cbn [classList_toggle].
    + rewrite elem_of_classList_add. tauto.
    + rewrite elem_of_classList_remove. tauto.
Qed.

Lemma applyTheme_marks_matching_pills_witness :
  ∃ btn',
    theme_pills
      (applyTheme "theme-nyc"
         {| app_body := Some [];
            theme_pills := [Pill (Some "theme-nyc") ["theme-pill"]];
            localStorage := ∅ |}) !! 0%nat = Some btn' ∧
    "active" ∈ pill_classes btn'.
Proof.
  destruct (proj2 (applyTheme_marks_matching_pills "theme-nyc"
              {| app_body := Some [];
                 theme_pills := [Pill (Some "theme-nyc") ["theme-pill"]];
                 localStorage := ∅ |} 0 (Pill (Some "theme-nyc") ["theme-pill"])
              (ex_intro _ [] eq_refl) eq_refl))
    as (btn' & Hi & _ & Hact & _).
  exists btn'. split; [exact Hi|]. apply Hact. reflexivity.
Defined.

(** ** theme.js: what [loadSavedTheme] reads *)

(** X5: the theme stored by [applyTheme] on one page load is the one
    [loadSavedTheme] applies on the next: on any page that finds the storage
    as a page with the root element left it, [loadSavedTheme] does what the
    same [applyTheme] call would do there. *)
Theorem saved_theme_survives_reload (name : string) (doc next : document) :
  is_Some (app_body doc) →
  localStorage next = localStorage (applyTheme name doc) →
  loadSavedTheme next = applyTheme name next.
Proof.
  intros [body Hbody] Hstore.
  destruct (applyTheme_fields name doc body Hbody) as (_ & _ & Hs).
  unfold loadSavedTheme. rewrite Hstore, Hs, lookup_insert_eq.
  pose proof (valid_theme_nonempty _ (normalize_theme_valid name)) as Hne.
  destruct (normalize_theme name) as [|ch rest] eqn:Hn; [done|].
  rewrite <- Hn. apply applyTheme_normalize.
Qed.

Lemma saved_theme_survives_reload_witness :
  loadSavedTheme
    {| app_body := Some ["page"]; theme_pills := [];
       localStorage := {[ THEME_KEY := "theme-porsche" ]} |} =
  applyTheme "theme-porsche"
    {| app_body := Some ["page"]; theme_pills := [];
       localStorage := {[ THEME_KEY := "theme-porsche" ]} |}.
Proof.
  apply (saved_theme_survives_reload "theme-porsche"
           {| app_body := Some []; theme_pills := []; localStorage := ∅ |}).
  - by eexists.
  - reflexivity.
Defined.

(** X6: with nothing stored, with the empty string stored, or with a stored
    value that is no valid theme, [loadSavedTheme] does what
    [applyTheme(DEFAULT_THEME)] does; so after it, on a page with the root
    element, the stored value is a valid theme whatever it was before. *)
Theorem loadSavedTheme_falls_back (doc : document) :
  (match localStorage doc !! THEME_KEY with
   | None => True
   | Some v => v = "" ∨ v ∉ VALID_THEMES
   end →
   loadSavedTheme doc = applyTheme DEFAULT_THEME doc) ∧
  (is_Some (app_body doc) →
   ∃ t, localStorage (loadSavedTheme doc) !! THEME_KEY = Some t ∧
        t ∈ VALID_THEMES).
Proof.
  split.
  - intros Hstored. unfold loadSavedTheme.
    destruct (localStorage doc !! THEME_KEY) as [[|ch rest]|]; [done| |done].
    destruct Hstored as [Hempty | Hinvalid]; [discriminate Hempty|].
    rewrite <- (applyTheme_normalize (String ch rest)).
    by rewrite (normalize_theme_invalid _ Hinvalid).
  - intros [body Hbody]. unfold loadSavedTheme.
    match goal with |- context [applyTheme ?s doc] =>
      destruct (applyTheme_fields s doc body Hbody) as (_ & _ & Hs);
      exists (normalize_theme s) end.
    rewrite Hs, lookup_insert_eq. split; [done|].
    apply normalize_theme_valid.
Qed.

Lemma loadSavedTheme_falls_back_witness :
  loadSavedTheme
    {| app_body := Some ["page"]; theme_pills := [];
       localStorage := {[ THEME_KEY := "theme-matrix" ]} |} =
  applyTheme DEFAULT_THEME
    {| app_body := Some ["page"]; theme_pills := [];
       localStorage := {[ THEME_KEY := "theme-matrix" ]} |}.
Proof.
  apply (proj1 (loadSavedTheme_falls_back
           {| app_body := Some ["page"]; theme_pills := [];
              localStorage := {[ THEME_KEY := "theme-matrix" ]} |})).
  right. apply (bool_decide_unpack ("theme-matrix" ∉ VALID_THEMES)).
  vm_compute. exact I.
Defined.

(** ** theme.js: clicking a pill *)

(** X7: a click on a pill of a page with the root element selects the
    pill's theme when its [data-theme] is a valid theme: that theme is
    stored and the clicked pill is shown as selected.  When the pill has no
    [data-theme] or an invalid one, the default theme is stored instead, and
    the clicked pill is shown as selected only if it carries the default
    theme, which it then does not. *)
Theorem pill_click_selects (i : nat) (btn : pill) (doc : document) :
  is_Some (app_body doc) →
  theme_pills doc !! i = Some btn →
  let theme := match dataset_theme btn with
               | Some t => normalize_theme t
               | None => DEFAULT_THEME
               end in
  localStorage (pill_click i doc) !! THEME_KEY = Some theme ∧
  (pill_active <$> theme_pills (pill_click i doc) !! i) =
    Some (bool_decide (dataset_theme btn = Some theme)) ∧
  (∀ t, dataset_theme btn = Some t → t ∈ VALID_THEMES →
     theme = t ∧
     (pill_active <$> theme_pills (pill_click i doc) !! i) = Some true) ∧
  ((dataset_theme btn = None ∨
    ∃ t, dataset_theme btn = Some t ∧ t ∉ VALID_THEMES) →
     theme = DEFAULT_THEME ∧
     (pill_active <$> theme_pills (pill_click i doc) !! i) = Some false).
Proof.
  intros [body Hbody] Hi theme.
  assert (Hclick : pill_click i doc = applyTheme theme doc).
  { unfold pill_click. rewrite Hi. subst theme.
    destruct (dataset_theme btn) as [t|]; [|done].
    by rewrite applyTheme_normalize. }
  assert (Htheme : normalize_theme theme = theme).
  { subst theme. destruct (dataset_theme btn) as [t|].
    - apply normalize_theme_idemp.
    - apply normalize_theme_keeps_valid.
      unfold DEFAULT_THEME, VALID_THEMES. by left. }
  destruct (applyTheme_fields theme doc body Hbody) as (_ & Hp & Hs).
  rewrite Htheme in Hp, Hs.
  assert (Hact : pill_active <$> theme_pills (pill_click i doc) !! i =
                 Some (bool_decide (dataset_theme btn = Some theme))).
  { rewrite Hclick, Hp, list_lookup_fmap, Hi. cbn.
    by rewrite pill_active_update. }
  split; [by rewrite Hclick, Hs, lookup_insert_eq|].
  split; [exact Hact|]. split.
  - intros t Ht Hvalid.
    assert (Heq : theme = t).
    { subst theme. rewrite Ht. by apply normalize_theme_keeps_valid. }
    split; [exact Heq|]. rewrite Hact, Heq, Ht.
    by rewrite bool_decide_eq_true_2.
  - intros Hbad.
    assert (Hdef : theme = DEFAULT_THEME).
    { subst theme. destruct Hbad as [-> | (t & -> & Hinvalid)]; [done|].
      by apply normalize_theme_invalid. }
    split; [exact Hdef|]. rewrite Hact, Hdef.
    f_equal. apply bool_decide_eq_false_2.
    destruct Hbad as [-> | (t & -> & Hinvalid)]; [done|].
    intros [= ->]. apply Hinvalid. unfold DEFAULT_THEME, VALID_THEMES.
    by left.
Qed.

Lemma pill_click_selects_witness :
  localStorage
    (pill_click 1
       {| app_body := Some ["page"; "theme-lofi"];
          theme_pills := [Pill (Some "theme-lofi") ["theme-pill"; "active"];
                          Pill (Some "theme-f1") ["theme-pill"]];
          localStorage := ∅ |}) !! THEME_KEY = Some "theme-f1".
Proof.
  refine (proj1 (pill_click_selects 1 (Pill (Some "theme-f1") ["theme-pill"])
                   {| app_body := Some ["page"; "theme-lofi"];
                      theme_pills :=
                        [Pill (Some "theme-lofi") ["theme-pill"; "active"];
                         Pill (Some "theme-f1") ["theme-pill"]];
                      localStorage := ∅ |} _ _)).
  - by eexists.
  - reflexivity.
Defined.

(** ** timer.js: the clock face *)

Lemma clock_checked :
  forallb (λ n, String.eqb (formatTime (Z.of_nat n)) (clock_face (Z.of_nat n))
                && bool_decide (clock_seconds (clock_face (Z.of_nat n))
                                = Some (Z.of_nat n)))
    (seq 0 (Z.to_nat 6000)) = true.
Proof. vm_compute. reflexivity. Qed.

(** X8: for every count below 100 minutes [formatTime] gives the five
    characters MM:SS, zero-padded, with the minutes and seconds of the
    count; two different counts never show the same clock face. *)
Theorem formatTime_clock_face (secs : Z) :
  0 ≤ secs < 6000 →
  formatTime secs = clock_face secs ∧
  String.length (formatTime secs) = 5%nat ∧
  ∀ secs', 0 ≤ secs' < 6000 → formatTime secs' = formatTime secs →
           secs' = secs.
Proof.
  assert (Hall : ∀ s, 0 ≤ s < 6000 →
            formatTime s = clock_face s ∧
            clock_seconds (clock_face s) = Some s).
  { intros s Hs. pose proof clock_checked as Hc.
    rewrite forallb_forall in Hc. specialize (Hc (Z.to_nat s)).
    rewrite Z2Nat.id in Hc by lia.
    apply andb_prop in Hc as [Hf Hr]; [|apply in_seq; lia].
    split; [by apply String.eqb_eq | by apply bool_decide_eq_true in Hr]. }
  intros Hsecs. destruct (Hall secs Hsecs) as [Hf Hr].
  split; [exact Hf|]. split; [by rewrite Hf|].
  intros secs' Hsecs' Heq. destruct (Hall secs' Hsecs') as [Hf' Hr'].
  rewrite Hf, Hf' in Heq. rewrite Heq, Hr in Hr'. by injection Hr'.
Qed.

Lemma formatTime_clock_face_witness :
  formatTime 754 = clock_face 754.
Proof. apply (formatTime_clock_face 754). lia. Defined.

(** ** timer.js: flags, countdowns and reports in every reachable state *)

Ltac obs_crush :=
  cbn [o_state o_seconds o_locked o_guard o_ticking o_start_disabled
       andb negb app length] in *;
  repeat match goal with
         | Hle : (_ <=? _) = true |- _ => rewrite Z.leb_le in Hle
         | Hgt : (_ <=? _) = false |- _ => rewrite Z.leb_gt in Hgt
         | H : _ ∧ _ |- _ => destruct H
         | H : _ ↔ _ |- _ => destruct H
         | H : ?x = ?x → _ |- _ => specialize (H eq_refl)
         end;
  repeat split; intros;
  first [ congruence | lia | done
        | exfalso; match goal with n : ¬ _ |- _ => apply n; congruence end ].

Lemma coherent_step (a : action) (o : observation) :
  coherent o → coherent (timer_step a o).
Proof.
  unfold coherent. intros Hco. destruct o as [st secs lk gd tk dis].
  destruct a; cbn [timer_step]; unfold started, ticked, abandoned, ready;
    repeat (case_match; try done); destruct st, lk, gd, tk; obs_crush.
Qed.

Lemma coherent_run (acts : list action) (o : observation) :
  coherent o → coherent (timer_run acts o).
Proof.
  revert o. induction acts as [|a acts IH]; intros o Hco; [done|].
  rewrite timer_run_cons. by apply IH, coherent_step.
Qed.

Lemma coherent_initial (html : node → element) :
  coherent (observe (initial_page html)).
Proof. rewrite observe_initial. unfold coherent. cbn. naive_solver. Qed.

(** X9: in every state reachable from the loaded page, by any actions, at
    most one interval is live; a live interval is the one [intervalId]
    holds, and the session is then running. *)
Theorem at_most_one_countdown (html : node → element) (acts : list action) :
  let p := run acts (initial_page html) in
  (length (intervals (env p)) ≤ 1)%nat ∧
  ∀ h, h ∈ intervals (env p) →
       intervalId (js p) = Some h ∧ timerState (js p) = Running.
Proof.
  intros p.
  destruct (run_observed acts _ (one_countdown_initial html))
    as (_ & _ & Hone). fold p in Hone.
  destruct Hone as [Hnil | (Hrun & h & Hh & Hid)].
  - rewrite Hnil. split; [cbn; lia|]. intros h Hin. by apply elem_of_nil in Hin.
  - rewrite Hh. split; [cbn; lia|]. intros h' Hin.
    apply list_elem_of_singleton in Hin as ->. done.
Qed.

Lemma at_most_one_countdown_witness :
  intervalId (js (run [Start] blank_page)) = Some 1%nat ∧
  timerState (js (run [Start] blank_page)) = Running.
Proof.
  apply (proj2 (at_most_one_countdown (λ _, blank_element) [Start]) 1%nat).
  vm_compute. apply list_elem_of_here.
Defined.

(** X10: in every state reachable from the loaded page, by any actions, the
    countdown is live exactly while the state is running, the unload guard
    is registered exactly while the state is running, and the lock flag is
    set exactly when the state is done. *)
Theorem session_flags_follow_state
    (html : node → element) (acts : list action) :
  let p := run acts (initial_page html) in
  (ticking p = true ↔ timerState (js p) = Running) ∧
  (beforeunload (env p) = true ↔ timerState (js p) = Running) ∧
  (sessionLocked (js p) = true ↔ timerState (js p) = Done).
Proof.
  intros p.
  destruct (run_observed acts _ (one_countdown_initial html))
    as (Hobs & _ & _). fold p in Hobs.
  pose proof (coherent_run acts _ (coherent_initial html)) as Hco.
  rewrite <- Hobs in Hco. exact Hco.
Qed.

Lemma awaited_reports_app (l1 l2 : list request) :
  awaited_reports (l1 ++ l2) = (awaited_reports l1 + awaited_reports l2)%nat.
Proof. unfold awaited_reports. by rewrite filter_app, length_app. Qed.

Lemma unload_reports_app (l1 l2 : list request) :
  unload_reports (l1 ++ l2) = (unload_reports l1 + unload_reports l2)%nat.
Proof. unfold unload_reports. by rewrite filter_app, length_app. Qed.

Lemma win_reports_app (l1 l2 : list request) :
  win_reports (l1 ++ l2) = (win_reports l1 + win_reports l2)%nat.
Proof. unfold win_reports. by rewrite filter_app, length_app. Qed.

Lemma count_actions_cons (f : action → bool) (a : action) (acts : list action) :
  count_actions f (a :: acts) =
  ((if f a then 1 else 0) + count_actions f acts)%nat.
Proof.
  unfold count_actions. rewrite filter_cons.
  destruct (f a); [by rewrite decide_True | by rewrite decide_False].
Qed.

(** One step: an awaited report is paid for by leaving the running state,
    which only a start enters; an unload report only comes from an unload. *)
Lemma reports_step (a : action) (o : observation) :
  coherent o →
  (awaited_reports (timer_reports a o)
   + (if decide (o_state (timer_step a o) = Running) then 1 else 0)
   ≤ (if is_start a then 1 else 0)
     + (if decide (o_state o = Running) then 1 else 0))%nat ∧
  (unload_reports (timer_reports a o) ≤ (if is_unload a then 1 else 0))%nat.
Proof.
  unfold coherent. intros Hco. destruct o as [st secs lk gd tk dis].
  destruct a; cbn [timer_step timer_reports is_start is_unload];
    unfold started, ticked, abandoned, ready;
    cbn [o_state o_seconds o_locked o_guard o_ticking o_start_disabled];
    destruct st, lk, gd, tk, dis;
    repeat (case_match; try done); cbn; obs_crush.
Qed.

Lemma reports_bounded (acts : list action) (o : observation) :
  coherent o →
  (awaited_reports (reports_of acts o)
   ≤ count_actions is_start acts
     + (if decide (o_state o = Running) then 1 else 0))%nat ∧
  (unload_reports (reports_of acts o) ≤ count_actions is_unload acts)%nat.
Proof.
  revert o. induction acts as [|a acts IH]; intros o Hco.
  - cbn. split; lia.
  - cbn [reports_of].
    rewrite awaited_reports_app, unload_reports_app, !count_actions_cons.
    destruct (reports_step a o Hco) as [Hs1 Hs2].
    destruct (IH _ (coherent_step a o Hco)) as [IH1 IH2]. lia.
Qed.

Lemma no_start_no_report (acts : list action) (o : observation) :
  coherent o → o_state o ≠ Running →
  count_actions is_start acts = 0%nat →
  reports_of acts o = [].
Proof.
  revert o. induction acts as [|a acts IH]; intros o Hco Hst Hn; [done|].
  rewrite count_actions_cons in Hn. cbn [reports_of].
  assert (Hstep : timer_reports a o = [] ∧
                  o_state (timer_step a o) ≠ Running).
  { unfold coherent in Hco. destruct o as [st secs lk gd tk dis].
    destruct a; try (cbn in Hn; lia);
      cbn [timer_step timer_reports];
      unfold started, ticked, abandoned, ready;
      cbn [o_state o_seconds o_locked o_guard o_ticking o_start_disabled]
        in *;
      destruct st, lk, gd, tk; repeat (case_match; try done); cbn;
      obs_crush. }
  destruct Hstep as [-> Hst']. cbn [app].
  apply IH; [by apply coherent_step | done | lia].
Qed.

(** X11: however the page is driven, the reports sent by [reportWin] and
    [reportLoss(false)] number at most the start actions, and the keepalive
    loss reports at most the unload events; so nothing at all is sent
    before the first start. *)
Theorem reports_need_a_start (html : node → element) (acts : list action) :
  let sent := network (env (run acts (initial_page html))) in
  (awaited_reports sent ≤ count_actions is_start acts)%nat ∧
  (unload_reports sent ≤ count_actions is_unload acts)%nat ∧
  (count_actions is_start acts = 0%nat → sent = []).
Proof.
  intros sent.
  destruct (run_observed acts _ (one_countdown_initial html))
    as (_ & Hnet & _).
  assert (Hsent : sent = reports_of acts (observe (initial_page html))).
  { subst sent. rewrite Hnet. unfold initial_page. page_simpl. done. }
  rewrite Hsent. clear Hsent Hnet sent.
  pose proof (coherent_initial html) as Hco.
  assert (Hidle : o_state (observe (initial_page html)) ≠ Running)
    by (rewrite observe_initial; done).
  destruct (reports_bounded acts _ Hco) as [Ha Hu].
  rewrite decide_False in Ha by done.
  split; [lia|]. split; [exact Hu|].
  intros Hnone. by apply no_start_no_report.
Qed.

Lemma reports_need_a_start_witness :
  network (env (run [Tick; Abandon; Unload; Reset] blank_page)) = [].
Proof.
  apply (proj2 (proj2 (reports_need_a_start (λ _, blank_element)
                         [Tick; Abandon; Unload; Reset]))).
  reflexivity.
Defined.

(** ** timer.js: a win takes the full duration *)

Lemma win_reports_timer_reports (a : action) (o : observation) :
  win_reports (timer_reports a o) =
  match a with
  | Tick => if o_ticking o && (o_seconds o - 1 <=? 0) then 1%nat else 0%nat
  | _ => 0%nat
  end.
Proof.
  destruct a; cbn [timer_reports]; try reflexivity.
  - by destruct (o_ticking o && (o_seconds o - 1 <=? 0)).
  - by destruct (decide (o_state o = Running)).
  - by destruct (o_guard o && negb (o_locked o) &&
                 bool_decide (o_state o = Running)).
Qed.

(** One step through the user interface: a win report uses up the 1500
    seconds a running session has counted down, and only a tick counts a
    second down. *)
Lemma wins_step (a : action) (o : observation) :
  session_inv o → through_ui a = true →
  TOTAL_SECONDS * Z.of_nat (win_reports (timer_reports a o))
    + elapsed (timer_step a o)
  ≤ (if is_tick a then 1 else 0) + elapsed o.
Proof.
  unfold session_inv, elapsed. intros Hinv Hui.
  rewrite win_reports_timer_reports.
  destruct o as [st secs lk gd tk dis].
  cbn [o_state o_seconds o_locked o_guard o_ticking o_start_disabled] in *.
  unfold TOTAL_SECONDS in *.
  destruct a; try discriminate Hui; cbn [timer_step is_tick];
    unfold started, ticked, abandoned, ready, TOTAL_SECONDS;
    cbn [o_state o_seconds o_locked o_guard o_ticking o_start_disabled];
    destruct st, tk, dis;
    repeat (case_match; try done);
    cbn [o_state o_seconds o_locked o_guard o_ticking o_start_disabled
         andb] in *;
    repeat match goal with
           | Hle : (_ <=? _) = true |- _ => rewrite Z.leb_le in Hle
           | Hgt : (_ <=? _) = false |- _ => rewrite Z.leb_gt in Hgt
           | H : _ ∧ _ |- _ => destruct H
           | H : ?x = ?x → _ |- _ => specialize (H eq_refl)
           end;
    first [ lia | congruence
          | exfalso; match goal with n : ¬ _ |- _ => apply n; congruence end ].
Qed.

Lemma wins_need_ticks (acts : list action) (o : observation) :
  session_inv o → forallb through_ui acts = true →
  TOTAL_SECONDS * Z.of_nat (win_reports (reports_of acts o))
  ≤ Z.of_nat (count_actions is_tick acts) + elapsed o.
Proof.
  revert o. induction acts as [|a acts IH]; intros o Hinv Hui.
  - cbn. unfold session_inv, elapsed, TOTAL_SECONDS in *.
    destruct (decide (o_state o = Running)); lia.
  - cbn [forallb] in Hui. apply andb_prop in Hui as [Ha Hacts].
    cbn [reports_of]. rewrite win_reports_app, count_actions_cons.
    pose proof (wins_step a o Hinv Ha) as Hstep.
    pose proof (IH _ (session_inv_step a o Ha Hinv) Hacts) as IHa.
    destruct (is_tick a); lia.
Qed.

(** X12: when sessions are started through the start button, every win
    report is paid for with 1500 firings of the interval: the win reports
    sent, times 1500, never exceed the ticks so far. *)
Theorem win_takes_full_duration (html : node → element) (acts : list action) :
  forallb through_ui acts = true →
  1500 * Z.of_nat (win_reports (network (env (run acts (initial_page html)))))
  ≤ Z.of_nat (count_actions is_tick acts).
Proof.
  intros Hui.
  destruct (run_observed acts _ (one_countdown_initial html))
    as (_ & -> & _).
  replace (network (env (initial_page html))) with (@nil request)
    by (unfold initial_page; page_simpl; done).
  cbn [app].
  pose proof (wins_need_ticks acts _ (session_inv_initial html) Hui) as Hw.
  rewrite observe_initial in Hw at 2. unfold elapsed in Hw.
  cbn [o_state] in Hw. rewrite decide_False in Hw by done.
  unfold TOTAL_SECONDS in Hw. lia.
Qed.

Lemma win_takes_full_duration_witness :
  let acts := ClickStart :: replicate 1500 Tick in
  forallb through_ui acts = true ∧
  1500 * Z.of_nat (win_reports (network (env (run acts blank_page))))
  ≤ Z.of_nat (count_actions is_tick acts).
Proof.
  intros acts. split; [reflexivity|].
  apply (win_takes_full_duration (λ _, blank_element) acts). reflexivity.
Defined.

(** ** timer.js: staying on the page, abandoning twice *)

(** X13: an unload event does not disturb the session.  On every reachable
    page, whatever happens after a [beforeunload] (the user having chosen to
    stay) gives the observations and sends the requests it would have given
    and sent without it. *)
Theorem unload_leaves_session_alone
    (html : node → element) (before after : list action) :
  let p := run before (initial_page html) in
  observe (on_beforeunload p) = observe p ∧
  dom (on_beforeunload p) = dom p ∧
  observe (run after (on_beforeunload p)) = observe (run after p) ∧
  emitted after (on_beforeunload p) = emitted after p.
Proof.
  intros p.
  destruct (run_observed before _ (one_countdown_initial html))
    as (_ & _ & Hone). fold p in Hone.
  destruct (unload_observed p Hone) as (Hobs & _ & Hone').
  split; [exact Hobs|]. split.
  { unfold on_beforeunload, handleBeforeUnload.
    destruct (beforeunload (env p)); [|done].
    by destruct (sessionLocked (js p) ||
                 bool_decide (timerState (js p) ≠ Running)). }
  destruct (run_observed after _ Hone') as (-> & _ & _).
  destruct (run_observed after _ Hone) as (-> & _ & _).
  rewrite !emitted_observed, Hobs by done. done.
Qed.

(** X14: [abandonSession] does nothing unless the session is running, so a
    second abandon right after the first leaves the page as the first left
    it and no second loss report is sent. *)
Theorem abandon_twice_is_abandon_once (p : page) :
  (timerState (js p) ≠ Running → abandonSession p = p) ∧
  abandonSession (abandonSession p) = abandonSession p ∧
  (timerState (js p) = Running →
   network (env (abandonSession (abandonSession p))) =
     network (env p) ++ [loss_request false]).
Proof.
  assert (Hnoop : ∀ q, timerState (js q) ≠ Running → abandonSession q = q).
  { intros q Hq. unfold abandonSession. by rewrite decide_True. }
  assert (Htwice : abandonSession (abandonSession p) = abandonSession p).
  { apply Hnoop. destruct (decide (timerState (js p) = Running)) as [Hr|Hr].
    - destruct (abandonSession_running p Hr) as (-> & _). done.
    - by rewrite Hnoop. }
  split; [apply Hnoop|]. split; [exact Htwice|].
  intros Hrun. rewrite Htwice. unfold abandonSession.
  rewrite decide_False by (by intros []). page_simpl. done.
Qed.

Lemma abandon_twice_is_abandon_once_witness :
  abandonSession blank_page = blank_page.
Proof.
  apply (proj1 (abandon_twice_is_abandon_once blank_page)). discriminate.
Defined.

(** ** timer.js: what each function writes on the page *)

Lemma updateProgress_writes (p : page) :
  style (dom (updateProgress p) progressBar) =
    <["background" :=
        Css (if secondsLeft (js p) <=? DANGER_THRESHOLD
             then "var(--accent-alt)" else "var(--accent)")]>
      (<["width" := PercentOf (secondsLeft (js p)) TOTAL_SECONDS]>
         (style (dom p progressBar))).
Proof.
  unfold updateProgress. page_simpl.
  destruct (secondsLeft (js p) <=? DANGER_THRESHOLD); page_simpl; done.
Qed.

Lemma tick_writes (p : page) :
  content (dom (tick p) display) =
    Text (if secondsLeft (js p) - 1 <=? 0 then "00:00"
          else formatTime (secondsLeft (js p) - 1)) ∧
  style (dom (tick p) progressBar) =
    <["background" :=
        Css (if secondsLeft (js p) - 1 <=? DANGER_THRESHOLD
             then "var(--accent-alt)" else "var(--accent)")]>
      (<["width" := PercentOf (secondsLeft (js p) - 1) TOTAL_SECONDS]>
         (style (dom p progressBar))) ∧
  dom (tick p) btnAbandon = dom p btnAbandon.
Proof.
  unfold tick. page_simpl.
  destruct (secondsLeft (js p) - 1 <=? DANGER_THRESHOLD) eqn:Hd; page_simpl;
    destruct (secondsLeft (js p) - 1 <=? 0); page_simpl;
    rewrite updateProgress_writes; page_simpl; rewrite Hd; done.
Qed.

Lemma startTimer_writes (p : page) :
  timerState (js p) ≠ Running →
  js (startTimer p) =
    {| timerState := Running; secondsLeft := secondsLeft (js p);
       intervalId := Some (nextHandle (env p)); sessionLocked := false |} ∧
  content (dom (startTimer p) display) = content (dom p display) ∧
  dom (startTimer p) progressBar = dom p progressBar ∧
  disabled (dom (startTimer p) btnStart) = true ∧
  classList (dom (startTimer p) btnStart) =
    classList_add "hidden" (classList (dom p btnStart)) ∧
  classList (dom (startTimer p) btnAbandon) =
    classList_remove "hidden" (classList (dom p btnAbandon)).
Proof.
  intros Hrun. unfold startTimer. rewrite decide_False by done.
  page_simpl. done.
Qed.

Lemma resetTimer_writes (p : page) :
  timerState (js (resetTimer p)) = Idle ∧
  secondsLeft (js (resetTimer p)) = TOTAL_SECONDS ∧
  content (dom (resetTimer p) display) = Text (formatTime TOTAL_SECONDS) ∧
  style (dom (resetTimer p) progressBar) =
    <["background" := Css "var(--accent)"]>
      (<["width" := Css "100%"]> (style (dom p progressBar))).
Proof. unfold resetTimer. page_simpl. done. Qed.

Lemma abandonSession_writes (p : page) (n : node) :
  n ≠ statusEl →
  dom (abandonSession p) n = dom p n ∧
  secondsLeft (js (abandonSession p)) = secondsLeft (js p) ∧
  timerState (js (abandonSession p)) ≠ Running.
Proof.
  intros Hn. unfold abandonSession.
  destruct (decide (timerState (js p) ≠ Running)) as [Hne | Heq]; [done|].
  page_simpl. rewrite dom_with_node_ne by congruence. done.
Qed.

Lemma on_beforeunload_writes (p : page) :
  js (on_beforeunload p) = js p ∧ dom (on_beforeunload p) = dom p.
Proof.
  unfold on_beforeunload, handleBeforeUnload.
  destruct (beforeunload (env p)); [|done].
  by destruct (sessionLocked (js p) ||
               bool_decide (timerState (js p) ≠ Running)).
Qed.

Lemma showResult_writes (o : outcome) (st : option stats) (p : page)
    (n : node) :
  timer_node n = true → dom (showResult o st p) n = dom p n.
Proof.
  intros Hn. unfold showResult.
  destruct o, st, n; try discriminate Hn; page_simpl; reflexivity.
Qed.

Lemma on_response_writes (i : nat) (r : fetch_result) (p : page) :
  js (on_response i r p) = js p ∧
  ∀ n, timer_node n = true → dom (on_response i r p) n = dom p n.
Proof.
  unfold on_response.
  destruct (inflight (env p) !! i) as [o|]; [|done].
  destruct (report_settled o r (resume i p)) as [st q] eqn:Hq.
  destruct (showResult_frame o st q) as (Hjs & _).
  assert (Hframe : js q = js p ∧ dom q = dom p).
  { unfold report_settled in Hq.
    destruct r; injection Hq as <- <-; page_simpl; done. }
  destruct Hframe as (Hjs' & Hdom').
  split; [by rewrite Hjs|]. intros n Hn.
  by rewrite showResult_writes, Hdom'.
Qed.

Lemma battle_again_writes (p : page) :
  js (battle_again p) = js (resetTimer p) ∧
  ∀ n, timer_node n = true → dom (battle_again p) n = dom (resetTimer p) n.
Proof.
  unfold battle_again, resetTimer. page_simpl. split; [done|].
  intros n Hn. destruct n; try discriminate Hn; page_simpl; reflexivity.
Qed.

(** ** timer.js: the page follows the session variables *)

Lemma on_interval_idle (p : page) :
  ticking p = false → on_interval p = p.
Proof.
  unfold ticking, on_interval. by destruct (intervals (env p)).
Qed.

Lemma on_interval_live (p : page) :
  ticking p = true → on_interval p = tick p.
Proof.
  unfold ticking, on_interval. by destruct (intervals (env p)).
Qed.

Lemma on_click_start_cases (p : page) :
  on_click_start p = p ∨
  (timerState (js p) ≠ Running ∧ disabled (dom p btnStart) = false ∧
   on_click_start p = startTimer p).
Proof.
  unfold on_click_start. destruct (disabled (dom p btnStart)); [by left|].
  destruct (decide (timerState (js p) = Running)) as [Hr | Hr].
  - left. unfold startTimer. by rewrite decide_True.
  - by right.
Qed.

Lemma progress_in_sync_step (a : action) (p : page) :
  progress_in_sync p → progress_in_sync (perform a p).
Proof.
  assert (Hreset : progress_in_sync (resetTimer p)).
  { destruct (resetTimer_writes p) as (_ & Hsec & _ & Hstyle).
    unfold progress_in_sync. rewrite Hsec, Hstyle.
    split; [by rewrite lookup_insert_eq|]. right. split; [done|].
    by rewrite lookup_insert_ne, lookup_insert_eq. }
  assert (Hstart : progress_in_sync p → progress_in_sync (startTimer p)).
  { intros Hp. destruct (decide (timerState (js p) = Running)) as [Hr | Hr].
    - unfold startTimer. by rewrite decide_True.
    - destruct (startTimer_writes p Hr) as (Hjs & _ & Hbar & _).
      unfold progress_in_sync. rewrite Hjs, Hbar. exact Hp. }
  intros Hp. destruct a; cbn [perform].
  - by apply Hstart.
  - destruct (ticking p) eqn:Ht;
      [rewrite on_interval_live by done | by rewrite on_interval_idle].
    destruct (tick_writes p) as (_ & Hstyle & _).
    unfold progress_in_sync. rewrite Hstyle, js_tick.
    assert (Hsec : ∀ (b : bool) (s1 s2 : session),
              secondsLeft s1 = secondsLeft (js p) - 1 →
              secondsLeft s2 = secondsLeft (js p) - 1 →
              secondsLeft (if b then s1 else s2) = secondsLeft (js p) - 1)
      by (by intros []).
    rewrite Hsec by done.
    split; [by rewrite lookup_insert_eq|]. left.
    by rewrite lookup_insert_ne, lookup_insert_eq.
  - destruct (abandonSession_writes p progressBar) as (Hd & Hs & _); [done|].
    unfold progress_in_sync. rewrite Hd, Hs. exact Hp.
  - exact Hreset.
  - destruct (on_beforeunload_writes p) as (Hjs & Hd).
    unfold progress_in_sync. rewrite Hjs, Hd. exact Hp.
  - destruct (on_response_writes i r p) as (Hjs & Hd).
    unfold progress_in_sync. rewrite Hjs, Hd by done. exact Hp.
  - destruct (on_click_start_cases p) as [-> | (_ & _ & ->)];
      [exact Hp | by apply Hstart].
  - destruct (battle_again_writes p) as (Hjs & Hd).
    unfold progress_in_sync. rewrite Hjs, Hd by done. exact Hreset.
Qed.

Lemma buttons_in_sync_step (a : action) (p : page) :
  one_countdown p → buttons_in_sync p → buttons_in_sync (perform a p).
Proof.
  intros Hone Hp.
  assert (Hidle : ∀ q, timerState (js q) = Idle → buttons_in_sync q).
  { intros q Hq Hne. done. }
  assert (Hstart : buttons_in_sync (startTimer p)).
  { destruct (decide (timerState (js p) = Running)) as [Hr | Hr].
    - unfold startTimer. by rewrite decide_True.
    - destruct (startTimer_writes p Hr) as (_ & _ & _ & Hdis & Hcs & Hca).
      intros _. rewrite Hdis, Hcs, Hca.
      rewrite elem_of_classList_add, elem_of_classList_remove.
      split; [done|]. split; [by left | tauto]. }
  destruct a; cbn [perform].
  - exact Hstart.
  - destruct (ticking p) eqn:Ht;
      [rewrite on_interval_live by done | by rewrite on_interval_idle].
    pose proof (one_countdown_ticking p Hone Ht) as Hrun.
    destruct (tick_writes p) as (_ & _ & Hab).
    intros _. rewrite btnStart_tick, Hab. apply Hp. by rewrite Hrun.
  - unfold abandonSession.
    destruct (decide (timerState (js p) ≠ Running)) as [Hne | Heq];
      [exact Hp|].
    apply dec_stable in Heq. intros _. page_simpl.
    apply Hp. by rewrite Heq.
  - apply Hidle, resetTimer_writes.
  - destruct (on_beforeunload_writes p) as (Hjs & Hd).
    unfold buttons_in_sync. rewrite Hjs, Hd. exact Hp.
  - destruct (on_response_writes i r p) as (Hjs & Hd).
    unfold buttons_in_sync. rewrite Hjs, !Hd by done. exact Hp.
  - destruct (on_click_start_cases p) as [-> | (_ & _ & ->)];
      [exact Hp | exact Hstart].
  - apply Hidle. destruct (battle_again_writes p) as (-> & _).
    apply resetTimer_writes.
Qed.

Lemma initial_page_in_sync (html : node → element) :
  display_in_sync (initial_page html) ∧ progress_in_sync (initial_page html) ∧
  danger_in_sync (initial_page html) ∧ buttons_in_sync (initial_page html).
Proof.
  unfold display_in_sync, progress_in_sync, danger_in_sync, buttons_in_sync.
  unfold initial_page. cbv zeta. rewrite updateProgress_writes. page_simpl.
  split; [done|]. split; [|done].
  split; [by rewrite lookup_insert_eq|]. left.
  by rewrite lookup_insert_ne, lookup_insert_eq.
Qed.

(** X15: in every state reachable from the loaded page, by any actions, the
    progress bar has the colour of the seconds left, the alternate accent
    from 60 seconds down and the accent above, and the width of the seconds
    left out of 1500. *)
Theorem progress_bar_follows_seconds
    (html : node → element) (acts : list action) :
  progress_in_sync (run acts (initial_page html)).
Proof.
  assert (Hgen : ∀ p, progress_in_sync p → progress_in_sync (run acts p)).
  { induction acts as [|a acts IH]; intros p Hp; [done|].
    rewrite run_cons. by apply IH, progress_in_sync_step. }
  apply Hgen, initial_page_in_sync.
Qed.

(** X16: in every state reachable from the loaded page, by any actions,
    whenever the session is not idle the start button is disabled and hidden
    and the abandon button is shown. *)
Theorem start_button_locked_outside_idle
    (html : node → element) (acts : list action) :
  buttons_in_sync (run acts (initial_page html)).
Proof.
  assert (Hgen : ∀ p, one_countdown p → buttons_in_sync p →
                      buttons_in_sync (run acts p)).
  { induction acts as [|a acts IH]; intros p Hone Hp; [done|].
    rewrite run_cons. apply IH.
    - by apply perform_observed.
    - by apply buttons_in_sync_step. }
  apply Hgen; [apply one_countdown_initial | apply initial_page_in_sync].
Qed.

Lemma start_button_locked_outside_idle_witness :
  disabled (dom (run [Start; Abandon] blank_page) btnStart) = true.
Proof.
  apply (start_button_locked_outside_idle (λ _, blank_element)
           [Start; Abandon]).
  discriminate.
Defined.

Lemma session_inv_facts (p : page) :
  session_inv (observe p) →
  0 ≤ secondsLeft (js p) ≤ TOTAL_SECONDS ∧
  (timerState (js p) = Running → 1 ≤ secondsLeft (js p)) ∧
  (disabled (dom p btnStart) = false →
   timerState (js p) = Idle ∧ secondsLeft (js p) = TOTAL_SECONDS).
Proof.
  unfold session_inv. cbn [observe o_state o_seconds o_start_disabled].
  intros (Hrange & Hrun & Hbtn & Hidle & _). split; [done|].
  split; [done|]. intros Hdis. split; [by apply Hbtn|]. by apply Hidle, Hbtn.
Qed.

Lemma display_in_sync_step (a : action) (p : page) :
  through_ui a = true → one_countdown p → session_inv (observe p) →
  display_in_sync p → display_in_sync (perform a p).
Proof.
  intros Hui Hone Hinv Hp.
  destruct (session_inv_facts p Hinv) as (Hrange & Hrun & _).
  assert (Hreset : display_in_sync (resetTimer p)).
  { destruct (resetTimer_writes p) as (_ & Hsec & Hc & _).
    unfold display_in_sync. by rewrite Hsec, Hc. }
  destruct a; try discriminate Hui; cbn [perform].
  - destruct (ticking p) eqn:Ht;
      [rewrite on_interval_live by done | by rewrite on_interval_idle].
    specialize (Hrun (one_countdown_ticking p Hone Ht)).
    destruct (tick_writes p) as (Hc & _).
    unfold display_in_sync. rewrite Hc, js_tick.
    destruct (Z.leb_spec (secondsLeft (js p) - 1) 0) as [Hle | Hgt];
      cbn [secondsLeft]; [|done].
    by replace (secondsLeft (js p) - 1) with 0 by lia.
  - destruct (abandonSession_writes p display) as (Hd & Hs & _); [done|].
    unfold display_in_sync. rewrite Hd, Hs. exact Hp.
  - exact Hreset.
  - destruct (on_beforeunload_writes p) as (Hjs & Hd).
    unfold display_in_sync. rewrite Hjs, Hd. exact Hp.
  - destruct (on_response_writes i r p) as (Hjs & Hd).
    unfold display_in_sync. rewrite Hjs, Hd by done. exact Hp.
  - destruct (on_click_start_cases p) as [-> | (Hr & _ & ->)]; [exact Hp|].
    destruct (startTimer_writes p Hr) as (Hjs & Hc & _).
    unfold display_in_sync. rewrite Hjs, Hc. exact Hp.
  - destruct (battle_again_writes p) as (Hjs & Hd).
    unfold display_in_sync. rewrite Hjs, Hd by done. exact Hreset.
Qed.

Lemma danger_in_sync_step (a : action) (p : page) :
  through_ui a = true → one_countdown p → session_inv (observe p) →
  danger_in_sync p → danger_in_sync (perform a p).
Proof.
  intros Hui Hone Hinv Hp.
  destruct (session_inv_facts p Hinv) as (_ & _ & Hbtn).
  assert (Hreset : ∀ q, timerState (js q) = Idle → danger_in_sync q).
  { intros q Hq Hrun. congruence. }
  destruct a; try discriminate Hui; cbn [perform].
  - destruct (ticking p) eqn:Ht;
      [rewrite on_interval_live by done | by rewrite on_interval_idle].
    specialize (Hp (one_countdown_ticking p Hone Ht)).
    unfold danger_in_sync. rewrite js_tick, display_classes_tick.
    destruct (Z.leb_spec (secondsLeft (js p) - 1) 0) as [Hle | Hgt];
      cbn [timerState secondsLeft]; [done|]. intros _.
    destruct (Z.leb_spec (secondsLeft (js p) - 1) DANGER_THRESHOLD)
      as [Hd | Hd].
    + destruct (danger_in_danger_classes (classList (dom p display)))
        as [Hin Hnot].
      split; [tauto|]. split; [done | lia].
    + destruct Hp as [Hdanger Hrunning]. rewrite Hdanger, Hrunning. lia.
  - destruct (abandonSession_writes p display) as (_ & _ & Hne); [done|].
    intros Hrun. done.
  - apply Hreset, resetTimer_writes.
  - destruct (on_beforeunload_writes p) as (Hjs & Hd).
    unfold danger_in_sync. rewrite Hjs, Hd. exact Hp.
  - destruct (on_response_writes i r p) as (Hjs & Hd).
    unfold danger_in_sync. rewrite Hjs, Hd by done. exact Hp.
  - destruct (on_click_start_cases p) as [-> | (Hr & Hdis & ->)];
      [exact Hp|].
    destruct (Hbtn Hdis) as [_ Hsec].
    destruct (startTimer_writes p Hr) as (Hjs & _).
    unfold danger_in_sync.
    rewrite Hjs, display_classes_startTimer by done.
    cbn [timerState secondsLeft]. intros _. rewrite Hsec.
    rewrite !elem_of_classList_remove, !elem_of_classList_add.
    unfold TOTAL_SECONDS, DANGER_THRESHOLD. split; split.
    + intros [Hne _]. by destruct Hne.
    + lia.
    + lia.
    + intros _. split; [discriminate | by left].
  - apply Hreset. destruct (battle_again_writes p) as (-> & _).
    apply resetTimer_writes.
Qed.

(** Through the user interface the display stays in step with the session. *)
Lemma ui_run_in_sync (acts : list action) (p : page) :
  forallb through_ui acts = true →
  one_countdown p → session_inv (observe p) →
  display_in_sync p → danger_in_sync p →
  display_in_sync (run acts p) ∧ danger_in_sync (run acts p).
Proof.
  revert p. induction acts as [|a acts IH];
    intros p Hui Hone Hinv Hdisp Hdanger; [done|].
  cbn [forallb] in Hui. apply andb_prop in Hui as [Ha Hacts].
  rewrite run_cons. destruct (perform_observed a p Hone) as (Hobs & _ & Hone').
  apply IH; try done.
  - rewrite Hobs. by apply session_inv_step.
  - by apply display_in_sync_step.
  - by apply danger_in_sync_step.
Qed.

(** X17: when sessions are started through the start button, the countdown
    display shows [formatTime] of the seconds left in every reachable
    state. *)
Theorem display_shows_seconds_left
    (html : node → element) (acts : list action) :
  forallb through_ui acts = true →
  display_in_sync (run acts (initial_page html)).
Proof.
  intros Hui.
  destruct (initial_page_in_sync html) as (Hd & _ & Hg & _).
  by apply ui_run_in_sync;
    auto using one_countdown_initial, session_inv_initial.
Qed.

Lemma display_shows_seconds_left_witness :
  let acts := [ClickStart; Tick; Tick; Unload; Abandon] in
  forallb through_ui acts = true ∧ display_in_sync (run acts blank_page).
Proof.
  intros acts. split; [reflexivity|].
  apply (display_shows_seconds_left (λ _, blank_element) acts). reflexivity.
Defined.

(** X18: when sessions are started through the start button, a running
    session has the ['danger'] class on the display exactly when at most 60
    seconds are left and the ['running'] class exactly when more are left,
    in every reachable state. *)
Theorem danger_mode_follows_seconds
    (html : node → element) (acts : list action) :
  forallb through_ui acts = true →
  danger_in_sync (run acts (initial_page html)).
Proof.
  intros Hui.
  destruct (initial_page_in_sync html) as (Hd & _ & Hg & _).
  by apply ui_run_in_sync;
    auto using one_countdown_initial, session_inv_initial.
Qed.

Lemma danger_mode_follows_seconds_witness :
  let acts := [ClickStart; Tick; Tick] in
  forallb through_ui acts = true ∧ danger_in_sync (run acts blank_page).
Proof.
  intros acts. split; [reflexivity|].
  apply (danger_mode_follows_seconds (λ _, blank_element) acts). reflexivity.
Defined.

(** ** timer.js: a report that succeeds *)



(** ** timer.js: a reset is silent *)

(** X20: on every reachable page, also in the middle of a running session,
    [resetTimer] sends no report, ends idle with the full duration, the lock
    flag unset, no unload guard and no live interval, and enables the start
    button; interval firings after it change nothing. *)
Theorem reset_is_silent
    (html : node → element) (acts : list action) (k : nat) :
  let p := run acts (initial_page html) in
  network (env (resetTimer p)) = network (env p) ∧
  observe (resetTimer p) = ready ∧
  run (replicate k Tick) (resetTimer p) = resetTimer p.
Proof.
  intros p.
  destruct (run_observed acts _ (one_countdown_initial html))
    as (_ & _ & Hone). fold p in Hone.
  destruct (reset_observed p Hone) as (Hobs & Hnet & _).
  split; [exact Hnet|]. split; [exact Hobs|].
  apply observe_fields in Hobs as (_ & _ & _ & _ & Htick & _).
  cbn [ready o_ticking] in Htick.
  induction k as [|k IH]; [done|].
  rewrite replicate_S, run_cons. cbn [perform].
  by rewrite on_interval_idle.
Qed.
